(** * redisco field layer: a shallow embedding of [redisco/models/attributes.py]

    The module under study is Python 2 code.  Its descriptors
    ([Attribute] and its scalar subclasses, [ListField], [ReferenceField])
    are embedded as Rocq functions over a small universe of Python
    values; exceptions are made explicit with a [result] type, and the
    mutable objects the code shares (list objects, the descriptor's own
    attribute dictionary, the instance's attribute dictionary) are
    modelled as explicit stores.

    Conventions: the interpreter is a 64-bit CPython 2.7 (a float is an
    IEEE 754 binary64, [str] of a float shows twelve significant
    digits), and the local time zone of the process is UTC. *)

From Stdlib Require Import ZArith Bool List Ascii String.
From Stdlib Require Import DecimalString DecimalZ DecimalPos SpecFloat.
From stdpp Require Import base gmap strings list.

Local Open Scope string_scope.
Local Open Scope list_scope.
Local Open Scope Z_scope.

(** ** Exceptions and results *)

(** The exceptions that the embedded code can raise.  The aggregate
    [FieldValidationError] carries the ordered list of
    [(field_name, message)] tuples. *)
Inductive exn : Type :=
| TypeError
| ValueError
| OverflowError
| AttributeError
| UnicodeEncodeError
| FieldValidationError (errors : list (string * string)).

Inductive result (A : Type) : Type :=
| Ok (a : A)
| Raise (e : exn).
Arguments Ok {A} a.
Arguments Raise {A} e.

Definition bind {A B} (r : result A) (k : A -> result B) : result B :=
  match r with
  | Ok a => k a
  | Raise e => Raise e
  end.

Notation "x <- c1 ;; c2" := (bind c1 (fun x => c2))
  (at level 100, c1 at next level, right associativity).

(** [try: body except TypeError, ValueError: handler].  In Python 2 the
    clause [except TypeError, ValueError] is the old spelling of
    [except TypeError as ValueError]: it catches [TypeError] only and
    binds the caught exception to the local name [ValueError]. *)
Definition try_except_TypeError_as {A} (body : result A) (handler : result A)
  : result A :=
  match body with
  | Raise TypeError => handler
  | r => r
  end.

(** ** Python values *)

(** [datetime.datetime] and [datetime.date] keep their calendar fields. *)
Record datetime : Type := mk_datetime {
  dt_year : Z; dt_month : Z; dt_day : Z;
  dt_hour : Z; dt_minute : Z; dt_second : Z;
  dt_microsecond : Z }.

Record date : Type := mk_date { d_year : Z; d_month : Z; d_day : Z }.

(** Modelled from the spec: an instance of a model class, seen as a
    value (the class [Model] is in [base.py]).  It has a class, the
    classes that one inherits from, an identifier ([value.id]) and the
    text [str] and [repr] show for it. *)
Record model_obj : Type := mk_model_obj {
  mo_class : string;
  mo_bases : list string;
  mo_id : string;
  mo_str : string }.

(** List objects are mutable and compared by identity: a list value is a
    reference into a store of list objects. *)
Definition loc := positive.

Inductive pyval : Type :=
| PNone
| PBool (b : bool)
| PInt (z : Z)
| PFloat (f : spec_float)
| PStr (s : string)
| PDatetime (d : datetime)
| PDate (d : date)
| PList (l : loc)
| PModel (o : model_obj).

(** The store of list objects. *)
Abbreviation heap := (gmap loc (list pyval)).

(** The items of the list object at [l]. *)
Definition list_at (h : heap) (l : loc) : list pyval := default [] (h !! l).

(** The classes that occur as [value_type()] or as a [ListField] target. *)
Inductive pytype : Type :=
| TyStr | TyBool | TyInt | TyFloat | TyDatetime | TyDate
| TyModel (cls : string).

(** ** Strings *)

Definition is_space (c : ascii) : bool :=
  let n := nat_of_ascii c in
  (Nat.eqb n 32 || (Nat.leb 9 n && Nat.leb n 13))%bool.

Definition string_is_empty (s : string) : bool :=
  match s with EmptyString => true | _ => false end.

Fixpoint lstrip (s : string) : string :=
  match s with
  | String c r => if is_space c then lstrip r else s
  | EmptyString => EmptyString
  end.

Fixpoint rstrip (s : string) : string :=
  match s with
  | String c r =>
      let r' := rstrip r in
      if (is_space c && string_is_empty r')%bool then EmptyString
      else String c r'
  | EmptyString => EmptyString
  end.

(** [s.strip()] *)
Definition strip (s : string) : string := rstrip (lstrip s).

Fixpoint repeat_char (c : ascii) (n : nat) : string :=
  match n with
  | O => EmptyString
  | S k => String c (repeat_char c k)
  end.

(** Decimal rendering of an integer, as [str] and [%d] give it. *)
Definition str_of_Z (z : Z) : string := NilZero.string_of_int (Z.to_int z).

(** [%0wd] for a non-negative integer. *)
Definition zero_pad (w : nat) (z : Z) : string :=
  let s := str_of_Z z in
  repeat_char "0" (w - String.length s) +:+ s.

(** [int(s)] on a string, base 10: surrounding white space is ignored;
    then come one optional sign, white space again (CPython 2 skips it
    after the sign, so [int('- 1')] is [-1]) and one or more digits. *)
Definition digits_of_string (s : string) : option Z :=
  match NilEmpty.uint_of_string s with
  | Some Decimal.Nil => None
  | Some d => Some (Z.of_uint d)
  | None => None
  end.

Definition signed_body (s : string) : bool * string :=
  match s with
  | String "-" r => (true, r)
  | String "+" r => (false, r)
  | _ => (false, s)
  end.

Definition int_of_string (s : string) : option Z :=
  let '(neg, body) := signed_body (strip s) in
  match digits_of_string (lstrip body) with
  | Some n => Some (if neg then - n else n)
  | None => None
  end.

(** ** Floats: IEEE 754 binary64, as CPython's [float] *)

Module PyFloat.

Definition prec : Z := 53.
Definition emax : Z := 1024.

Definition of_Z (z : Z) : spec_float := binary_normalize prec emax z 0 false.

(** The correctly rounded quotient [n / d] of two positive integers. *)
Definition of_ratio (neg : bool) (n d : positive) : spec_float :=
  let '(q, e, l) := SFdiv_core_binary prec emax (Zpos n) 0 (Zpos d) 0 in
  binary_round_aux prec emax neg q e l.

(** The correctly rounded value of [n * 10^e], for [n >= 0]. *)
Definition of_decimal (neg : bool) (n : Z) (e : Z) : spec_float :=
  match n with
  | Zpos p =>
      if 0 <=? e then of_Z ((if neg then - n else n) * 10 ^ e)
      else of_ratio neg p (Z.to_pos (10 ^ (- e)))
  | _ => S754_zero neg
  end.

Definition add := SFadd prec emax.
Definition sub := SFsub prec emax.
Definition mul := SFmul prec emax.

Definition is_zero (f : spec_float) : bool :=
  match f with S754_zero _ => true | _ => false end.

Definition is_negative (f : spec_float) : bool :=
  match f with
  | S754_zero s | S754_infinity s | S754_finite s _ _ => s
  | S754_nan => false
  end.

(** [floor] of a finite float, as an integer ([None] on inf and nan). *)
Definition floor (f : spec_float) : option Z :=
  match f with
  | S754_zero _ => Some 0
  | S754_finite s m e =>
      let sm := if s then Zneg m else Zpos m in
      Some (if 0 <=? e then sm * 2 ^ e else sm / 2 ^ (- e))
  | _ => None
  end.

Definition ceil (f : spec_float) : option Z :=
  match floor (SFopp f) with
  | Some z => Some (- z)
  | None => None
  end.

(** The C cast [(time_t)x] / Python's [int(x)]: truncation toward zero. *)
Definition trunc (f : spec_float) : option Z :=
  if is_negative f then ceil f else floor f.

Definition half : spec_float := S754_finite false 4503599627370496 (-53).

(** [round_to_long] of CPython's datetime module:
    [floor(x + 0.5)] when [x >= 0.0], [ceil(x - 0.5)] otherwise. *)
Definition round_to_long (x : spec_float) : option Z :=
  if SFleb (S754_zero false) x then floor (add x half)
  else ceil (sub x half).

(** *** Parsing: [float(s)] *)

Definition is_digit (c : ascii) : bool :=
  let n := nat_of_ascii c in (Nat.leb 48 n && Nat.leb n 57)%bool.

Fixpoint span_digits (s : string) : string * string :=
  match s with
  | String c r =>
      if is_digit c then let '(d, t) := span_digits r in (String c d, t)
      else (EmptyString, s)
  | EmptyString => (EmptyString, EmptyString)
  end.

Definition to_lower (c : ascii) : ascii :=
  let n := nat_of_ascii c in
  if (Nat.leb 65 n && Nat.leb n 90)%bool then ascii_of_nat (n + 32) else c.

Fixpoint lower (s : string) : string :=
  match s with
  | String c r => String (to_lower c) (lower r)
  | EmptyString => EmptyString
  end.

Definition Z_of_digits (s : string) : Z :=
  match NilEmpty.uint_of_string s with
  | Some d => Z.of_uint d
  | None => 0
  end.

Definition exponent_part (s : string) : option Z :=
  match s with
  | EmptyString => Some 0
  | String c r =>
      if (Ascii.eqb c "e" || Ascii.eqb c "E")%bool then
        let '(neg, body) := signed_body r in
        match digits_of_string body with
        | Some n => Some (if neg then - n else n)
        | None => None
        end
      else None
  end.

Definition of_string (s : string) : option spec_float :=
  let '(neg, body) := signed_body (strip s) in
  let low := lower body in
  if (String.eqb low "inf" || String.eqb low "infinity")%bool
  then Some (S754_infinity neg)
  else if String.eqb low "nan" then Some S754_nan
  else
    let '(ip, r1) := span_digits body in
    let '(fp, r2) :=
      match r1 with
      | String "." r => span_digits r
      | _ => (EmptyString, r1)
      end in
    if (string_is_empty ip && string_is_empty fp)%bool then None
    else
      match exponent_part r2 with
      | Some e10 =>
          Some (of_decimal neg (Z_of_digits (ip +:+ fp))
                  (e10 - Z.of_nat (String.length fp)))
      | None => None
      end.

(** *** Printing: [str(x)] shows twelve significant digits, [repr(x)]
    the shortest string that reads back as [x]; both add [.0] to an
    integral mantissa. *)

Definition nb_digits (z : Z) : Z := Z.of_nat (String.length (str_of_Z z)).

(** [decimal_digits n m e = (q, decpt)]: the value [m * 2^e] rounded
    (half to even) to [n] significant digits is [0.q * 10^decpt], where
    [q] has exactly [n] digits. *)
Definition decimal_digits (n : Z) (m : positive) (e : Z) : Z * Z :=
  let num := if 0 <=? e then Zpos m * 2 ^ e else Zpos m in
  let den := if 0 <=? e then 1 else 2 ^ (- e) in
  let k :=
    if den <=? num then nb_digits (num / den)
    else
      let k0 := 1 - nb_digits (den / num) in
      if den <=? num * 10 ^ (- k0) then k0 + 1 else k0 in
  let s := n - k in
  let num' := if 0 <=? s then num * 10 ^ s else num in
  let den' := if 0 <=? s then den else den * 10 ^ (- s) in
  let q0 := num' / den' in
  let r := num' mod den' in
  let q :=
    match 2 * r ?= den' with
    | Lt => q0
    | Eq => if Z.even q0 then q0 else q0 + 1
    | Gt => q0 + 1
    end in
  if q =? 10 ^ n then (10 ^ (n - 1), k + 1) else (q, k).

Fixpoint strip_trailing_zeros (s : string) : string :=
  match s with
  | String c r =>
      let r' := strip_trailing_zeros r in
      if (Ascii.eqb c "0" && string_is_empty r')%bool then EmptyString
      else String c r'
  | EmptyString => EmptyString
  end.

Definition take (n : nat) (s : string) : string := String.substring 0 n s.
Definition drop (n : nat) (s : string) : string :=
  String.substring n (String.length s - n) s.

(** Layout of the digit string [ds] with decimal point position
    [decpt]; [maxpt] is the largest [decpt] printed without exponent. *)
Definition layout (maxpt : Z) (ds : string) (decpt : Z) : string :=
  let nd := Z.of_nat (String.length ds) in
  if ((decpt <=? -4) || (maxpt <? decpt))%bool then
    let x := decpt - 1 in
    let mant :=
      match ds with
      | String c EmptyString => ds
      | String c r => String c (String "." r)
      | EmptyString => ds
      end in
    mant +:+ "e" +:+ (if x <? 0 then "-" else "+") +:+ zero_pad 2 (Z.abs x)
  else if decpt <=? 0 then
    "0." +:+ repeat_char "0" (Z.to_nat (- decpt)) +:+ ds
  else if nd <=? decpt then
    ds +:+ repeat_char "0" (Z.to_nat (decpt - nd)) +:+ ".0"
  else
    take (Z.to_nat decpt) ds +:+ "." +:+ drop (Z.to_nat decpt) ds.

Definition format (n maxpt : Z) (f : spec_float) : string :=
  match f with
  | S754_nan => "nan"
  | S754_infinity s => if s then "-inf" else "inf"
  | S754_zero s => if s then "-0.0" else "0.0"
  | S754_finite s m e =>
      let '(q, decpt) := decimal_digits n m e in
      (if s then "-" else "") +:+
      layout maxpt (strip_trailing_zeros (str_of_Z q)) decpt
  end.

(** [str(x)] in Python 2: twelve significant digits; since [.0] is
    added to an integral mantissa, the exponent form starts one digit
    earlier than [%.12g] has it, at [1e+11]. *)
Definition str (f : spec_float) : string := format 12 11 f.

Definition float_eqb (a b : spec_float) : bool :=
  match a, b with
  | S754_zero s, S754_zero t => Bool.eqb s t
  | S754_infinity s, S754_infinity t => Bool.eqb s t
  | S754_nan, S754_nan => true
  | S754_finite s m e, S754_finite t n g =>
      (Bool.eqb s t && Pos.eqb m n && Z.eqb e g)%bool
  | _, _ => false
  end.

(** The two [n]-digit decimals next to [m * 2^e], the nearer one first
    (one decimal only when the value has [n] digits exactly). *)
Definition decimal_neighbours (n : Z) (m : positive) (e : Z)
  : list (Z * Z) :=
  let num := if 0 <=? e then Zpos m * 2 ^ e else Zpos m in
  let den := if 0 <=? e then 1 else 2 ^ (- e) in
  let k :=
    if den <=? num then nb_digits (num / den)
    else
      let k0 := 1 - nb_digits (den / num) in
      if den <=? num * 10 ^ (- k0) then k0 + 1 else k0 in
  let s := n - k in
  let num' := if 0 <=? s then num * 10 ^ s else num in
  let den' := if 0 <=? s then den else den * 10 ^ (- s) in
  let q0 := num' / den' in
  let r := num' mod den' in
  let below := (q0, k) in
  let above := if q0 + 1 =? 10 ^ n then (10 ^ (n - 1), k + 1) else (q0 + 1, k) in
  if r =? 0 then [below]
  else
    match 2 * r ?= den' with
    | Lt => [below; above]
    | Eq => if Z.even q0 then [below; above] else [above; below]
    | Gt => [above; below]
    end.

Definition show_digits (maxpt : Z) (s : bool) (qk : Z * Z) : string :=
  (if s then "-" else "") +:+
  layout maxpt (strip_trailing_zeros (str_of_Z (fst qk))) (snd qk).

(** The first of the candidates that reads back as [f]. *)
Fixpoint first_exact (f : spec_float) (cands : list string) : option string :=
  match cands with
  | [] => None
  | c :: r =>
      match of_string c with
      | Some g => if float_eqb g f then Some c else first_exact f r
      | None => first_exact f r
      end
  end.

Fixpoint repr_search (fuel : nat) (n : Z) (s : bool) (m : positive) (e : Z)
  : string :=
  match fuel with
  | O => format 17 16 (S754_finite s m e)
  | S k =>
      match first_exact (S754_finite s m e)
              (map (show_digits 16 s) (decimal_neighbours n m e)) with
      | Some c => c
      | None => repr_search k (n + 1) s m e
      end
  end.

(** [repr(x)]: of the shortest digit strings that read back as [x],
    the one nearest to [x]. *)
Definition repr (f : spec_float) : string :=
  match f with
  | S754_finite s m e => repr_search 16 1 s m e
  | _ => format 17 16 f
  end.

End PyFloat.

(** ** Calendar: [time.mktime], [fromtimestamp]

    Both directions go through the process's local time; the embedding
    fixes the local zone to UTC, where local time has neither offset nor
    daylight saving.  The calendar is the proleptic Gregorian one. *)

Module Calendar.

(** Days between 1970-01-01 and the given civil date. *)
Definition days_from_civil (y m d : Z) : Z :=
  let y' := if m <=? 2 then y - 1 else y in
  let era := y' / 400 in
  let yoe := y' - era * 400 in
  let doy := (153 * (if 2 <? m then m - 3 else m + 9) + 2) / 5 + d - 1 in
  let doe := yoe * 365 + yoe / 4 - yoe / 100 + doy in
  era * 146097 + doe - 719468.

Definition civil_from_days (z : Z) : Z * Z * Z :=
  let z' := z + 719468 in
  let era := z' / 146097 in
  let doe := z' - era * 146097 in
  let yoe := (doe - doe / 1460 + doe / 36524 - doe / 146096) / 365 in
  let doy := doe - (365 * yoe + yoe / 4 - yoe / 100) in
  let mp := (5 * doy + 2) / 153 in
  let d := doy - (153 * mp + 2) / 5 + 1 in
  let m := if mp <? 10 then mp + 3 else mp - 9 in
  let y := yoe + era * 400 in
  (if m <=? 2 then y + 1 else y, m, d).

(** The year as [time.mktime] takes it from a time tuple (CPython 2.7,
    [gettmarg] with [accept2dyear] on): a year below 1900 is a two-digit
    year, 69..99 for 1969..1999 and 0..68 for 2000..2068, and any other
    year below 1900 is refused with [ValueError]. *)
Definition tm_year (y : Z) : result Z :=
  if 1900 <=? y then Ok y
  else if ((69 <=? y) && (y <=? 99))%bool then Ok (y + 1900)
  else if ((0 <=? y) && (y <=? 68))%bool then Ok (y + 2000)
  else Raise ValueError.

(** [time.mktime(value.timetuple())]: seconds since the epoch.  The C
    function returns a float that holds this integer. *)
Definition mktime_datetime (v : datetime) : result Z :=
  y <- tm_year (dt_year v) ;;
  Ok (days_from_civil y (dt_month v) (dt_day v) * 86400
      + dt_hour v * 3600 + dt_minute v * 60 + dt_second v).

Definition mktime_date (v : date) : result Z :=
  y <- tm_year (d_year v) ;;
  Ok (days_from_civil y (d_month v) (d_day v) * 86400).

Definition year_ok (y : Z) : bool := ((1 <=? y) && (y <=? 9999))%bool.

(** [datetime.fromtimestamp(t)] (CPython 2.7, [datetime_from_timestamp]):
    the seconds are the timestamp truncated toward zero, the
    microseconds the rounded remaining fraction. *)
Definition datetime_fromtimestamp (t : spec_float) : result datetime :=
  match PyFloat.trunc t with
  | None => Raise ValueError
  | Some timet =>
      let fraction := PyFloat.sub t (PyFloat.of_Z timet) in
      match PyFloat.round_to_long
              (PyFloat.mul fraction (PyFloat.of_Z 1000000)) with
      | None => Raise ValueError
      | Some us =>
          let '(timet, us) :=
            if us <? 0 then (timet - 1, us + 1000000) else (timet, us) in
          let '(timet, us) :=
            if us =? 1000000 then (timet + 1, 0) else (timet, us) in
          let '(y, m, d) := civil_from_days (timet / 86400) in
          let sod := timet mod 86400 in
          if year_ok y
          then Ok (mk_datetime y m d (sod / 3600) (sod mod 3600 / 60)
                     (sod mod 60) us)
          else Raise ValueError
      end
  end.

(** [date.fromtimestamp(t)] *)
Definition date_fromtimestamp (t : spec_float) : result date :=
  match PyFloat.trunc t with
  | None => Raise ValueError
  | Some timet =>
      let '(y, m, d) := civil_from_days (timet / 86400) in
      if year_ok y then Ok (mk_date y m d) else Raise ValueError
  end.

Definition iso_date (y m d : Z) : string :=
  zero_pad 4 y +:+ "-" +:+ zero_pad 2 m +:+ "-" +:+ zero_pad 2 d.

(** [str(d)] for a date and for a datetime ([isoformat(sep=' ')]). *)
Definition str_date (v : date) : string :=
  iso_date (d_year v) (d_month v) (d_day v).

Definition str_datetime (v : datetime) : string :=
  iso_date (dt_year v) (dt_month v) (dt_day v) +:+ " " +:+
  zero_pad 2 (dt_hour v) +:+ ":" +:+ zero_pad 2 (dt_minute v) +:+ ":" +:+
  zero_pad 2 (dt_second v) +:+
  (if dt_microsecond v =? 0 then "" else "." +:+ zero_pad 6 (dt_microsecond v)).

Definition repr_date (v : date) : string :=
  "datetime.date(" +:+ str_of_Z (d_year v) +:+ ", " +:+ str_of_Z (d_month v)
  +:+ ", " +:+ str_of_Z (d_day v) +:+ ")".

Definition repr_datetime (v : datetime) : string :=
  "datetime.datetime(" +:+ str_of_Z (dt_year v) +:+ ", " +:+
  str_of_Z (dt_month v) +:+ ", " +:+ str_of_Z (dt_day v) +:+ ", " +:+
  str_of_Z (dt_hour v) +:+ ", " +:+ str_of_Z (dt_minute v) +:+
  (if dt_microsecond v =? 0 then
     if dt_second v =? 0 then "" else ", " +:+ str_of_Z (dt_second v)
   else ", " +:+ str_of_Z (dt_second v) +:+ ", " +:+
        str_of_Z (dt_microsecond v))
  +:+ ")".

End Calendar.

(** ** Built-in functions on values *)

Definition chr (n : nat) : ascii := ascii_of_nat n.

Definition hex_digit (n : nat) : ascii :=
  if Nat.ltb n 10 then chr (48 + n) else chr (87 + n).

Fixpoint string_mem (c : ascii) (s : string) : bool :=
  match s with
  | String a r => (Ascii.eqb a c || string_mem c r)%bool
  | EmptyString => false
  end.

Fixpoint escape_with (q : ascii) (s : string) : string :=
  match s with
  | EmptyString => EmptyString
  | String c r =>
      let n := nat_of_ascii c in
      let rest := escape_with q r in
      if (Ascii.eqb c q || Nat.eqb n 92)%bool then String (chr 92) (String c rest)
      else if Nat.eqb n 9 then String (chr 92) (String "t" rest)
      else if Nat.eqb n 10 then String (chr 92) (String "n" rest)
      else if Nat.eqb n 13 then String (chr 92) (String "r" rest)
      else if (Nat.ltb n 32 || Nat.leb 127 n)%bool then
        String (chr 92) (String "x"
          (String (hex_digit (Nat.div n 16))
             (String (hex_digit (Nat.modulo n 16)) rest)))
      else String c rest
  end.

(** [repr(s)] of a byte string: single quotes, unless the text holds a
    single quote and no double quote. *)
Definition repr_string (s : string) : string :=
  let q := if (string_mem (chr 39) s && negb (string_mem (chr 34) s))%bool
           then chr 34 else chr 39 in
  String q (escape_with q s +:+ String q EmptyString).

(** A plain [int] of a 64-bit CPython 2; integers beyond are [long]. *)
Definition is_machine_int (z : Z) : bool :=
  ((- 2 ^ 63 <=? z) && (z <? 2 ^ 63))%bool.

Fixpoint join (sep : string) (l : list string) : string :=
  match l with
  | [] => EmptyString
  | [x] => x
  | x :: r => x +:+ sep +:+ join sep r
  end.

(** [isinstance(v, list)] *)
Definition is_list (v : pyval) : bool :=
  match v with PList _ => true | _ => false end.

(** [isinstance(v, t)]: [bool] is a subclass of [int], [datetime] a
    subclass of [date]. *)
Definition isinstance (v : pyval) (t : pytype) : bool :=
  match t, v with
  | TyStr, PStr _ => true
  | TyBool, PBool _ => true
  | TyInt, PBool _ => true
  | TyInt, PInt z => is_machine_int z
  | TyFloat, PFloat _ => true
  | TyDatetime, PDatetime _ => true
  | TyDate, PDate _ => true
  | TyDate, PDatetime _ => true
  | TyModel cls, PModel o =>
      (String.eqb cls (mo_class o) || existsb (String.eqb cls) (mo_bases o))%bool
  | _, _ => false
  end.

Section Builtins.

Variable h : heap.

(** Truth value of an object ([if val:], [bool(val)]). *)
Definition truthy (v : pyval) : bool :=
  match v with
  | PNone => false
  | PBool b => b
  | PInt z => negb (z =? 0)
  | PFloat f => negb (PyFloat.is_zero f)
  | PStr s => negb (string_is_empty s)
  | PList l => match h !! l with Some (_ :: _) => true | _ => false end
  | PDatetime _ | PDate _ | PModel _ => true
  end.

(** [repr(v)].  A list shows the [repr] of its items; a list met again
    while it is being shown prints as [[...]].  [depth] bounds the
    nesting, and no chain of distinct lists is longer than the store. *)
Fixpoint repr_at (depth : nat) (seen : list loc) (v : pyval) : string :=
  match v with
  | PNone => "None"
  | PBool b => if b then "True" else "False"
  | PInt z => if is_machine_int z then str_of_Z z else str_of_Z z +:+ "L"
  | PFloat f => PyFloat.repr f
  | PStr s => repr_string s
  | PDatetime d => Calendar.repr_datetime d
  | PDate d => Calendar.repr_date d
  | PModel o => mo_str o
  | PList l =>
      match depth with
      | O => "[...]"
      | S k =>
          if existsb (Pos.eqb l) seen then "[...]"
          else "[" +:+ join ", " (map (repr_at k (l :: seen)) (list_at h l))
               +:+ "]"
      end
  end.

Definition py_repr (v : pyval) : string := repr_at (S (size h)) [] v.

(** [str(v)] for the values of [pyval], on which it never fails; [str]
    of a [unicode] object is [str_of] below. *)
Definition py_str (v : pyval) : string :=
  match v with
  | PInt z => str_of_Z z
  | PFloat f => PyFloat.str f
  | PStr s => s
  | PDatetime d => Calendar.str_datetime d
  | PDate d => Calendar.str_date d
  | _ => py_repr v
  end.

End Builtins.

(** Python 2 has a second string type, [unicode], beside the byte
    string [str].  The fields are embedded over [pyval]; a [unicode]
    object (the code points of its characters) is added where a method
    is studied on every object it can be given. *)
Inductive pyobj : Type :=
| Plain (v : pyval)
| PUnicode (codes : list N).

Fixpoint string_of_codes (codes : list N) : string :=
  match codes with
  | [] => EmptyString
  | c :: r => String (ascii_of_N c) (string_of_codes r)
  end.

(** [u.encode('ascii')], the default encoding: a code point above 127
    raises [UnicodeEncodeError]. *)
Definition encode_ascii (codes : list N) : result string :=
  if forallb (fun c => (c <? 128)%N) codes then Ok (string_of_codes codes)
  else Raise UnicodeEncodeError.

(** [str(x)] on any object. *)
Definition str_of (h : heap) (x : pyobj) : result string :=
  match x with
  | Plain v => Ok (py_str h v)
  | PUnicode u => encode_ascii u
  end.

(** [int(v)] *)
Definition py_int (v : pyval) : result Z :=
  match v with
  | PInt z => Ok z
  | PBool b => Ok (if b then 1 else 0)
  | PFloat f =>
      match f with
      | S754_nan => Raise ValueError
      | S754_infinity _ => Raise OverflowError
      | _ => match PyFloat.trunc f with Some z => Ok z | None => Raise ValueError end
      end
  | PStr s =>
      match int_of_string s with Some z => Ok z | None => Raise ValueError end
  | _ => Raise TypeError
  end.

(** [float(v)] *)
Definition py_float (v : pyval) : result spec_float :=
  match v with
  | PFloat f => Ok f
  | PInt z =>
      match PyFloat.of_Z z with
      | S754_infinity _ => Raise OverflowError
      | f => Ok f
      end
  | PBool b => Ok (PyFloat.of_Z (if b then 1 else 0))
  | PStr s =>
      match PyFloat.of_string s with Some f => Ok f | None => Raise ValueError end
  | _ => Raise TypeError
  end.

(** ** The store and model instances (external collaborators) *)

(** Modelled from the spec: the key-value store behind [instance.db]
    and [redisco.containers.List], one hash per instance ([hget]) and
    ordered lists of raw strings ([List(key).members]). *)
Record db : Type := mk_db {
  hashes : gmap string (gmap string string);
  lists : gmap string (list string) }.

(** Modelled from the spec: [instance.db.hget(key, field)], the raw
    value, or [None] when the hash has no such field. *)
Definition hget (d : db) (key field : string) : option string :=
  match hashes d !! key with
  | Some row => row !! field
  | None => None
  end.

(** Modelled from the spec: [List(key).members], the ordered members
    of the list at [key]; a key that holds nothing is the empty list. *)
Definition members (d : db) (key : string) : list string :=
  default [] (lists d !! key).

(** Modelled from the spec: the owning model instance, with the
    answers of [instance.is_new()] and [instance.key()], and its
    attribute dictionary (the slots the descriptors read and write). *)
Record instance : Type := mk_instance {
  is_new : bool;
  key : string;
  attrs : gmap string pyval }.

(** [setattr(instance, slot, value)] and [getattr(instance, slot)] on
    the attribute dictionary of the instance.  The slots are plain
    instance attributes: the model class is taken to have no field that
    is itself named like a slot (an underscore and the name of another
    field, or its [attname]); Python would hand the access of such a
    name to that field's descriptor. *)
Definition setattr (i : instance) (slot : string) (v : pyval) : instance :=
  {| is_new := is_new i; key := key i; attrs := <[slot := v]> (attrs i) |}.

Definition getattr (i : instance) (slot : string) : result pyval :=
  match attrs i !! slot with
  | Some v => Ok v
  | None => Raise AttributeError
  end.

(** Modelled from the spec: [instance.key()[name]], the sub-key
    [<instance_key>:<field_name>] of a field. *)
Definition subkey (i : instance) (name : string) : string :=
  key i +:+ ":" +:+ name.

(** An external validator: called with the value, it returns error
    tuples; a falsy answer ([None], an empty list) is the empty list. *)
Definition validator_fn : Type := pyval -> list (string * string).

Definition is_None (v : pyval) : bool :=
  match v with PNone => true | _ => false end.

Definition nonempty {A} (l : list A) : bool :=
  match l with [] => false | _ => true end.

(** ** [Attribute] and its scalar subclasses *)

Inductive field_class : Type :=
| CAttribute | CBooleanField | CIntegerField | CFloatField
| CDateTimeField | CDateField.

Record Attribute : Type := mk_Attribute {
  cls : field_class;
  name : string;
  indexed : bool;
  required : bool;
  validator : option validator_fn;
  default : pyval;
  auto_now : bool;
  auto_now_add : bool }.

(** [Attribute.typecast_for_read], [typecast_for_storage], [value_type] *)
Definition Attribute_typecast_for_read (value : pyval) : result pyval :=
  Ok value.

Definition Attribute_typecast_for_storage (h : heap) (value : pyobj)
  : result pyval :=
  s <- str_of h value ;; Ok (PStr s).

Definition Attribute_value_type : pytype := TyStr.

(** [BooleanField] *)
Definition BooleanField_typecast_for_read (value : pyval) : result pyval :=
  z <- py_int value ;; Ok (PBool (negb (z =? 0))).

Definition BooleanField_typecast_for_storage (h : heap) (value : pyval)
  : result pyval :=
  if is_None value then Ok (PStr "0")
  else Ok (PStr (if truthy h value then "1" else "0")).

Definition BooleanField_value_type : pytype := TyBool.

(** [IntegerField] *)
Definition IntegerField_typecast_for_read (value : pyval) : result pyval :=
  z <- py_int value ;; Ok (PInt z).

Definition IntegerField_typecast_for_storage (h : heap) (value : pyval)
  : result pyval :=
  if is_None value then Ok (PStr "0")
  else Ok (PStr (py_str h value)).

Definition IntegerField_value_type : pytype := TyInt.

(** [FloatField] *)
Definition FloatField_typecast_for_read (value : pyval) : result pyval :=
  f <- py_float value ;; Ok (PFloat f).

Definition FloatField_typecast_for_storage (h : heap) (value : pyval)
  : result pyval :=
  if is_None value then Ok (PStr "0")
  else Ok (PStr (py_str h value)).

Definition FloatField_value_type : pytype := TyFloat.

(** [DateTimeField] *)
Definition DateTimeField_typecast_for_read (value : pyval) : result pyval :=
  try_except_TypeError_as
    (f <- py_float value ;;
     d <- Calendar.datetime_fromtimestamp f ;;
     Ok (PDatetime d))
    (Ok PNone).

Definition DateTimeField_typecast_for_storage (value : pyval) : result pyval :=
  if negb (isinstance value TyDatetime) then Raise TypeError
  else if is_None value then Ok PNone
  else
    match value with
    | PDatetime d =>
        t <- Calendar.mktime_datetime d ;;
        Ok (PStr (str_of_Z t +:+ "." +:+ str_of_Z (dt_microsecond d)))
    | _ => Raise TypeError
    end.

Definition DateTimeField_value_type : pytype := TyDatetime.

(** [DateField] *)
Definition DateField_typecast_for_read (value : pyval) : result pyval :=
  try_except_TypeError_as
    (f <- py_float value ;;
     d <- Calendar.date_fromtimestamp f ;;
     Ok (PDate d))
    (Ok PNone).



(** [value.timetuple()] of a date, or of a datetime (a subclass). *)
Definition mktime_timetuple (value : pyval) : result Z :=
  match value with
  | PDate d => Calendar.mktime_date d
  | PDatetime d => Calendar.mktime_datetime d
  | _ => Raise TypeError
  end.

Definition DateField_typecast_for_storage (value : pyval) : result pyval :=
  if negb (isinstance value TyDate) then Raise TypeError
  else if is_None value then Ok PNone
  else
    t <- mktime_timetuple value ;;
    Ok (PStr (str_of_Z t +:+ ".000000")).

Definition DateField_value_type : pytype := TyDate.

(** Method lookup on the class of [self], for the values of [pyval]. *)
Definition typecast_for_read (self : Attribute) : pyval -> result pyval :=
  match cls self with
  | CAttribute => Attribute_typecast_for_read
  | CBooleanField => BooleanField_typecast_for_read
  | CIntegerField => IntegerField_typecast_for_read
  | CFloatField => FloatField_typecast_for_read
  | CDateTimeField => DateTimeField_typecast_for_read
  | CDateField => DateField_typecast_for_read
  end.

Definition typecast_for_storage (h : heap) (self : Attribute)
  : pyval -> result pyval :=
  match cls self with
  | CAttribute => fun value => Attribute_typecast_for_storage h (Plain value)
  | CBooleanField => BooleanField_typecast_for_storage h
  | CIntegerField => IntegerField_typecast_for_storage h
  | CFloatField => FloatField_typecast_for_storage h
  | CDateTimeField => DateTimeField_typecast_for_storage
  | CDateField => DateField_typecast_for_storage
  end.

Definition value_type (self : Attribute) : pytype :=
  match cls self with
  | CAttribute => Attribute_value_type
  | CBooleanField => BooleanField_value_type
  | CIntegerField => IntegerField_value_type
  | CFloatField => FloatField_value_type
  | CDateTimeField => DateTimeField_value_type
  | CDateField => DateField_value_type
  end.

(** [Attribute.__set__]: the value goes to the instance slot [_name]. *)
Definition Attribute_set (self : Attribute) (i : instance) (value : pyval)
  : instance :=
  setattr i ("_" +:+ name self) value.

(** [Attribute.__get__]: the cached slot, else the stored raw value
    converted for reading (persisted instance), else the default. *)
Definition Attribute_get (d : db) (self : Attribute) (i : instance)
  : result pyval * instance :=
  match getattr i ("_" +:+ name self) with
  | Ok v => (Ok v, i)
  | Raise _ =>
      if negb (is_new i) then
        let val := hget d (key i) (name self) in
        match val with
        | Some raw =>
            match typecast_for_read self (PStr raw) with
            | Ok val => (Ok val, Attribute_set self i val)
            | Raise e => (Raise e, i)
            end
        | None => (Ok PNone, Attribute_set self i PNone)
        end
      else (Ok (default self), Attribute_set self i (default self))
  end.

(** [Attribute.validate]: the three checks add to one list [errors];
    the method raises once, at the end, when the list is not empty. *)
Definition Attribute_validate (h : heap) (d : db) (self : Attribute)
  (i : instance) : result unit * instance :=
  match Attribute_get d self i with
  | (Raise e, i) => (Raise e, i)
  | (Ok val, i) =>
      let errors : list (string * string) := [] in
      let errors :=
        if (truthy h val && negb (isinstance val (value_type self)))%bool
        then errors ++ [(name self, "bad type")] else errors in
      let errors :=
        if required self then
          if (is_None val || string_is_empty (strip (py_str h val)))%bool
          then errors ++ [(name self, "required")] else errors
        else errors in
      let errors :=
        match validator self with
        | Some f => let r := f val in
                    if nonempty r then errors ++ r else errors
        | None => errors
        end in
      if nonempty errors then (Raise (FieldValidationError errors), i)
      else (Ok tt, i)
  end.

(** ** [ListField] and [ReferenceField] *)

(** What [_target_type] holds: a class, the name of a model class still
    to be looked up, or [None] (left there by a failed lookup). *)
Inductive target : Type :=
| ByName (n : string)
| ByClass (t : pytype)
| NoTarget.

Record ListField : Type := mk_ListField {
  lf_target_type : target;
  lf_name : string;
  lf_indexed : bool;
  lf_required : bool;
  lf_validator : option validator_fn;
  lf_default : pyval;
  lf_redisco_model : bool }.

Record ReferenceField : Type := mk_ReferenceField {
  rf_target_type : target;
  rf_name : string;
  rf_indexed : bool;
  rf_required : bool;
  rf_attname : option string;
  rf_related_name : option string;
  rf_validator : option validator_fn;
  rf_default : pyval;
  (** the attribute [_name] of the descriptor object itself; [None]
      while the descriptor has no such attribute (the field is taken
      not to be named after an attribute that [__init__] sets) *)
  rf_cache : option pyval }.

(** Allocation of a new list object. *)
Definition alloc (h : heap) (items : list pyval) : loc * heap :=
  let l := fresh (dom h) in (l, <[l := items]> h).

Fixpoint map_result {A B} (f : A -> result B) (l : list A) : result (list B) :=
  match l with
  | [] => Ok []
  | x :: r => y <- f x ;; ys <- map_result f r ;; Ok (y :: ys)
  end.

Fixpoint chars (s : string) : list pyval :=
  match s with
  | String c r => PStr (String c EmptyString) :: chars r
  | EmptyString => []
  end.

(** The items [for v in val] runs over. *)
Definition iter_items (h : heap) (val : pyval) : result (list pyval) :=
  match val with
  | PList l => Ok (list_at h l)
  | PStr s => Ok (chars s)
  | _ => Raise TypeError
  end.

Section Fields.

(** [Model.objects.get_by_id] of the class named [c], and
    [get_model_from_key]; both live in the model layer. *)
Variable get_by_id : string -> pyval -> option model_obj.
Variable get_model_from_key : string -> option string.

(** [klass.objects.get_by_id(v)] *)
Definition objects_get_by_id (klass : option pytype) (v : pyval)
  : result pyval :=
  match klass with
  | Some (TyModel c) =>
      Ok (match get_by_id c v with Some o => PModel o | None => PNone end)
  | _ => Raise AttributeError
  end.

(** [klass(v)] for a class that is not a model. *)
Definition construct (h : heap) (klass : option pytype) (v : pyval)
  : result pyval :=
  match klass with
  | Some TyStr => Ok (PStr (py_str h v))
  | Some TyBool => Ok (PBool (truthy h v))
  | Some TyInt => z <- py_int v ;; Ok (PInt z)
  | Some TyFloat => f <- py_float v ;; Ok (PFloat f)
  | _ => Raise TypeError
  end.

(** [ListField.__init__] *)
Definition ListField_init (h : heap) (target_type : target) (name : string)
  (indexed required : bool) (validator : option validator_fn)
  (default : pyval) : ListField * heap :=
  let '(dflt, h') :=
    if truthy h default then (default, h)
    else let '(l, h') := alloc h [] in (PList l, h') in
  (mk_ListField target_type name indexed required validator dflt
     match target_type with
     | ByName _ => true
     | ByClass (TyModel _) => true
     | _ => false
     end, h').

Definition ListField_set (self : ListField) (i : instance) (value : pyval)
  : instance :=
  setattr i ("_" +:+ lf_name self) value.

Definition lf_with_target (self : ListField) (t : target) : ListField :=
  mk_ListField t (lf_name self) (lf_indexed self) (lf_required self)
    (lf_validator self) (lf_default self) (lf_redisco_model self).

(** [ListField.value_type]: a name is looked up on first need and the
    answer is kept in [_target_type], also when it is [None]. *)
Definition ListField_value_type (self : ListField)
  : result (option pytype) * ListField :=
  match lf_target_type self with
  | ByName t =>
      match get_model_from_key t with
      | Some c => (Ok (Some (TyModel c)), lf_with_target self (ByClass (TyModel c)))
      | None => (Raise ValueError, lf_with_target self NoTarget)
      end
  | ByClass c => (Ok (Some c), self)
  | NoTarget => (Ok None, self)
  end.

(** The conversion step of [ListField.__get__]: identifiers resolved
    through the model class, the unresolved ones filtered out, or each
    item passed to the target class. *)
Definition ListField_convert (h : heap) (self : ListField)
  (klass : option pytype) (vs : list pyval) : result (list pyval) :=
  if lf_redisco_model self then
    os <- map_result (objects_get_by_id klass) vs ;;
    Ok (List.filter (fun o => negb (is_None o)) os)
  else map_result (construct h klass) vs.

(** [ListField.__get__] *)
Definition ListField_get (h : heap) (d : db) (self : ListField) (i : instance)
  : result pyval * (heap * ListField * instance) :=
  match getattr i ("_" +:+ lf_name self) with
  | Ok v => (Ok v, (h, self, i))
  | Raise _ =>
      let val : option (result (list pyval)) :=
        if is_new i then
          if is_None (lf_default self) then None
          else Some (iter_items h (lf_default self))
        else Some (Ok (map PStr (members d (subkey i (lf_name self))))) in
      match val with
      | None => (Ok PNone, (h, self, ListField_set self i PNone))
      | Some items =>
          let '(rk, self) := ListField_value_type self in
          match rk with
          | Raise e => (Raise e, (h, self, i))
          | Ok klass =>
              match (vs <- items ;; ListField_convert h self klass vs) with
              | Raise e => (Raise e, (h, self, i))
              | Ok out =>
                  let '(l, h') := alloc h out in
                  (Ok (PList l), (h', self, ListField_set self i (PList l)))
              end
          end
      end
  end.

(** The loop of [ListField.validate] over the items of the list. *)
Fixpoint ListField_check_items (self : ListField) (items : list pyval)
  (errors : list (string * string))
  : result (list (string * string)) * ListField :=
  match items with
  | [] => (Ok errors, self)
  | item :: rest =>
      match ListField_value_type self with
      | (Raise e, self) => (Raise e, self)
      | (Ok None, self) => (Raise TypeError, self)
      | (Ok (Some t), self) =>
          ListField_check_items self rest
            (if negb (isinstance item t)
             then errors ++ [(lf_name self, "bad type in list")] else errors)
      end
  end.

(** [ListField.validate] *)
Definition ListField_validate (h : heap) (d : db) (self : ListField)
  (i : instance) : result unit * (heap * ListField * instance) :=
  match ListField_get h d self i with
  | (Raise e, st) => (Raise e, st)
  | (Ok val, (h, self, i)) =>
      let errors : list (string * string) := [] in
      let '(checked, self) :=
        if truthy h val then
          if negb (is_list val)
          then (Ok (errors ++ [(lf_name self, "bad type")]), self)
          else
            match iter_items h val with
            | Ok items => ListField_check_items self items errors
            | Raise e => (Raise e, self)
            end
        else (Ok errors, self) in
      match checked with
      | Raise e => (Raise e, (h, self, i))
      | Ok errors =>
          let errors :=
            if lf_required self then
              if negb (truthy h val)
              then errors ++ [(lf_name self, "required")] else errors
            else errors in
          let errors :=
            match lf_validator self with
            | Some f => let r := f val in
                        if nonempty r then errors ++ r else errors
            | None => errors
            end in
          if nonempty errors
          then (Raise (FieldValidationError errors), (h, self, i))
          else (Ok tt, (h, self, i))
      end
  end.

(** [ReferenceField.value_type] *)
Definition ReferenceField_value_type (self : ReferenceField) : target :=
  rf_target_type self.

Definition rf_with_attname (self : ReferenceField) (a : option string)
  : ReferenceField :=
  mk_ReferenceField (rf_target_type self) (rf_name self) (rf_indexed self)
    (rf_required self) a (rf_related_name self) (rf_validator self)
    (rf_default self) (rf_cache self).

Definition rf_with_cache (self : ReferenceField) (c : option pyval)
  : ReferenceField :=
  mk_ReferenceField (rf_target_type self) (rf_name self) (rf_indexed self)
    (rf_required self) (rf_attname self) (rf_related_name self)
    (rf_validator self) (rf_default self) c.

(** The property [attname]: [name + '_id'] unless given, kept once
    computed. *)
Definition ReferenceField_attname (self : ReferenceField)
  : string * ReferenceField :=
  match rf_attname self with
  | Some a => (a, self)
  | None =>
      let a := rf_name self +:+ "_id" in (a, rf_with_attname self (Some a))
  end.

Definition ReferenceField_related_name (self : ReferenceField)
  : option string :=
  rf_related_name self.

(** [isinstance(value, self.value_type())]; the built-in itself raises
    [TypeError] when its second argument is not a class. *)
Definition isinstance_target (value : pyval) (t : target) : result bool :=
  match t with
  | ByClass c => Ok (isinstance value c)
  | _ => Raise TypeError
  end.

(** [value.id] *)
Definition attr_id (value : pyval) : result pyval :=
  match value with
  | PModel o => Ok (PStr (mo_id o))
  | _ => Raise AttributeError
  end.

(** [ReferenceField.__set__] *)
Definition ReferenceField_set (self : ReferenceField) (i : instance)
  (value : pyval) : result unit * (ReferenceField * instance) :=
  match isinstance_target value (ReferenceField_value_type self) with
  | Raise e => (Raise e, (self, i))
  | Ok inst =>
      if (negb inst && negb (is_None value))%bool
      then (Raise TypeError, (self, i))
      else
        let '(a, self) := ReferenceField_attname self in
        match attr_id value with
        | Ok ident => (Ok tt, (self, setattr i a ident))
        | Raise e => (Raise e, (self, i))
        end
  end.

(** [self.value_type().objects]: only a model class has the manager
    [objects]; any other target raises [AttributeError]. *)
Definition target_objects (t : target) : result string :=
  match t with
  | ByClass (TyModel c) => Ok c
  | _ => Raise AttributeError
  end.

(** The lookup of [__get__],
    [self.value_type().objects.get_by_id(getattr(instance, self.attname))]:
    the manager is reached first, then [attname] is computed, the
    identifier read from the instance and looked up. *)
Definition ReferenceField_lookup (self : ReferenceField) (i : instance)
  : result pyval * ReferenceField :=
  match target_objects (ReferenceField_value_type self) with
  | Raise e => (Raise e, self)
  | Ok c =>
      let '(a, self) := ReferenceField_attname self in
      match getattr i a with
      | Raise e => (Raise e, self)
      | Ok ident =>
          (Ok (match get_by_id c ident with
               | Some o => PModel o
               | None => PNone
               end), self)
      end
  end.

(** [ReferenceField.__get__]: the attribute [_name] is looked for, and
    set, on the descriptor [self]. *)
Definition ReferenceField_get (self : ReferenceField) (i : instance)
  : result pyval * ReferenceField :=
  let '(body, self) :=
    match rf_cache self with
    | Some o => (Ok o, self)
    | None =>
        match ReferenceField_lookup self i with
        | (Ok o, self) => (Ok o, rf_with_cache self (Some o))
        | (Raise e, self) => (Raise e, self)
        end
    end in
  match body with
  | Raise AttributeError =>
      (Ok (rf_default self), rf_with_cache self (Some (rf_default self)))
  | r => (r, self)
  end.

(** [ReferenceField.validate] *)
Definition ReferenceField_validate (h : heap) (self : ReferenceField)
  (i : instance) : result unit * ReferenceField :=
  match ReferenceField_get self i with
  | (Raise e, self) => (Raise e, self)
  | (Ok val, self) =>
      let errors : list (string * string) := [] in
      let checked :=
        if truthy h val then
          inst <- isinstance_target val (ReferenceField_value_type self) ;;
          Ok (if negb inst
              then errors ++ [(rf_name self, "bad type for reference")]
              else errors)
        else Ok errors in
      match checked with
      | Raise e => (Raise e, self)
      | Ok errors =>
          let errors :=
            if rf_required self then
              if negb (truthy h val)
              then errors ++ [(rf_name self, "required")] else errors
            else errors in
          let errors :=
            match rf_validator self with
            | Some f => let r := f val in
                        if nonempty r then errors ++ r else errors
            | None => errors
            end in
          if nonempty errors
          then (Raise (FieldValidationError errors), self)
          else (Ok tt, self)
      end
  end.

(** *** The three field kinds under one interface *)

Inductive field : Type :=
| Scalar (a : Attribute)
| Collection (l : ListField)
| Reference (r : ReferenceField).



(** The class the type check of a field compares with, when the
    descriptor names one. *)
Definition declared_class (f : field) : option pytype :=
  match f with
  | Scalar a => Some (value_type a)
  | Collection l =>
      match lf_target_type l with
      | ByClass t => Some t
      | ByName n => option_map TyModel (get_model_from_key n)
      | NoTarget => None
      end
  | Reference r =>
      match rf_target_type r with
      | ByClass t => Some t
      | _ => None
      end
  end.

Definition field_name (f : field) : string :=
  match f with
  | Scalar a => name a
  | Collection l => lf_name l
  | Reference r => rf_name r
  end.

Definition field_validator (f : field) : option validator_fn :=
  match f with
  | Scalar a => validator a
  | Collection l => lf_validator l
  | Reference r => rf_validator r
  end.


Definition required_errors (h : heap) (f : field) (val : pyval)
  : list (string * string) :=
  match f with
  | Scalar a =>
      if (required a &&
          (is_None val || string_is_empty (strip (py_str h val))))%bool
      then [(field_name f, "required")] else []
  | Collection l =>
      if (lf_required l && negb (truthy h val))%bool
      then [(field_name f, "required")] else []
  | Reference r =>
      if (rf_required r && negb (truthy h val))%bool
      then [(field_name f, "required")] else []
  end.

Definition validator_errors (f : field) (val : pyval)
  : list (string * string) :=
  match field_validator f with
  | Some g => g val
  | None => []
  end.

(** The instances the identifiers [ids] resolve to in the model class
    [c]: in order, the unresolved ones left out. *)
Definition resolve_all (c : string) (ids : list pyval) : list pyval :=
  omap (fun v => PModel <$> get_by_id c v) ids.

(** What [validate] does with a collected list. *)
Definition outcome (errors : list (string * string)) : result unit :=
  if nonempty errors then Raise (FieldValidationError errors) else Ok tt.

End Fields.

(** [read(to_storage(v))]: a value written for storage and read back. *)
Definition read_back (h : heap) (self : Attribute) (v : pyval) : result pyval :=
  raw <- typecast_for_storage h self v ;; typecast_for_read self raw.

Definition scalar_field (c : field_class) (n : string) : Attribute :=
  mk_Attribute c n true false None PNone false false.

Fixpoint all_chars (P : ascii -> bool) (s : string) : bool :=
  match s with
  | String c r => (P c && all_chars P r)%bool
  | EmptyString => true
  end.

(** ** Concrete fields, used to exercise the statements below *)

Module Examples.

Definition person (id : string) : model_obj :=
  mk_model_obj "Person" [] id "Person".

(** A model layer in which every identifier but [2] resolves. *)
Definition get_by_id (c : string) (v : pyval) : option model_obj :=
  match v with
  | PStr id =>
      if (String.eqb c "Person" && negb (String.eqb id "2"))%bool
      then Some (person id) else None
  | _ => None
  end.

Definition get_model_from_key (n : string) : option string :=
  if String.eqb n "Person" then Some n else None.

Definition store : db :=
  mk_db ∅ {[ "Group:7:people" := ["1"; "2"; "3"] ]}.

Definition people : ListField :=
  mk_ListField (ByName "Person") "people" true false None
    (PList 1%positive) true.

Definition group7 : instance := mk_instance false "Group:7" ∅.
Definition group8 : instance := mk_instance true "Group:8" ∅.

(** [ListField(int, default=['1', '2'])] *)
Definition nums_heap : heap := {[ 1%positive := [PStr "1"; PStr "2"] ]}.
Definition nums : ListField :=
  fst (ListField_init nums_heap (ByClass TyInt) "nums" true false None
         (PList 1%positive)).


Definition count : Attribute := scalar_field CIntegerField "count".
Definition zero_count : instance :=
  mk_instance true "Person:1" {[ "_count" := PFloat (S754_zero false) ]}.

End Examples.

(** ** More concrete fields and instances *)

Module Cases.

(** A persisted post whose hash holds a title, a score that is no
    number, and a timestamp; a second one whose score is a number. *)
Definition store : db :=
  mk_db
    (<["Post:1" := <["title" := "hello"]> (<["score" := "abc"]>
                     (<["at" := "1700000000.5"]> ∅))]>
     (<["Post:3" := <["score" := "12"]> ∅]> ∅))
    (<["Post:1:votes" := ["7"; "-8"]]>
     (<["Post:1:marks" := ["7"; "x"]]>
      (<["Post:1:tags" := ["a"; "b"]]> ∅))).

Definition empty_store : db := mk_db ∅ ∅.

Definition post1 : instance := mk_instance false "Post:1" ∅.
Definition post3 : instance := mk_instance false "Post:3" ∅.
Definition draft : instance := mk_instance true "Post:2" ∅.

Definition title : Attribute :=
  mk_Attribute CAttribute "title" true true None PNone false false.
Definition subtitle : Attribute := scalar_field CAttribute "subtitle".
Definition score : Attribute := scalar_field CIntegerField "score".
Definition needed_score : Attribute :=
  mk_Attribute CIntegerField "score" true true None PNone false false.
Definition posted_at : Attribute := scalar_field CDateTimeField "at".

Definition scored_zero : instance :=
  mk_instance true "Post:2" (<["_score" := PInt 0]> ∅).

(** A list store that holds one empty list, the default of the list
    fields below. *)
Definition lists1 : heap := <[1%positive := []]> ∅.

Definition votes : ListField :=
  mk_ListField (ByClass TyInt) "votes" true false None (PList 1%positive) false.
Definition marks : ListField :=
  mk_ListField (ByClass TyInt) "marks" true false None (PList 1%positive) false.
Definition tags : ListField :=
  mk_ListField (ByClass TyStr) "tags" true false None (PList 1%positive) false.
Definition ghosts : ListField :=
  mk_ListField (ByName "Ghost") "ghosts" true false None (PList 1%positive) true.
Definition authors : ListField :=
  mk_ListField (ByName "Person") "authors" true false None (PList 1%positive)
    true.

Definition owner : ReferenceField :=
  mk_ReferenceField (ByClass (TyModel "Person")) "owner" true true None None
    None PNone None.
Definition owner_by_name : ReferenceField :=
  mk_ReferenceField (ByName "Person") "owner" true true None None
    None PNone None.

Definition car : instance := mk_instance false "Car:1" ∅.

(** Two cars whose owners are the people 1 and 3. *)
Definition car_of_1 : instance :=
  mk_instance false "Car:1" (<["owner_id" := PStr "1"]> ∅).
Definition car_of_3 : instance :=
  mk_instance false "Car:3" (<["owner_id" := PStr "3"]> ∅).

End Cases.

(** * Properties *)

(** ** Integers print and parse back *)

Lemma is_digit_not_space c : PyFloat.is_digit c = true -> is_space c = false.
Proof.
  destruct c as [[] [] [] [] [] [] [] []]; vm_compute; congruence.
Qed.

Lemma is_digit_not_sign c :
  PyFloat.is_digit c = true -> c <> "-"%char /\ c <> "+"%char.
Proof.
  destruct c as [[] [] [] [] [] [] [] []]; vm_compute; intros; split; congruence.
Qed.

Lemma all_chars_impl (P Q : ascii -> bool) s :
  (forall c, P c = true -> Q c = true) ->
  all_chars P s = true -> all_chars Q s = true.
Proof.
  intros HPQ. induction s as [|c r IH]; simpl; [done|].
  rewrite !andb_true_iff. intros [Hc Hr]. auto.
Qed.

Lemma lstrip_no_space s :
  all_chars (fun c => negb (is_space c)) s = true -> lstrip s = s.
Proof.
  destruct s as [|c r]; simpl; [done|].
  rewrite andb_true_iff, negb_true_iff. intros [-> _]. done.
Qed.

Lemma rstrip_no_space s :
  all_chars (fun c => negb (is_space c)) s = true -> rstrip s = s.
Proof.
  induction s as [|c r IH]; simpl; [done|].
  rewrite andb_true_iff, negb_true_iff. intros [-> Hr].
  rewrite IH by done. done.
Qed.

Lemma strip_no_space s :
  all_chars (fun c => negb (is_space c)) s = true -> strip s = s.
Proof.
  intros H. unfold strip. rewrite lstrip_no_space by done.
  by apply rstrip_no_space.
Qed.

Lemma string_of_uint_digits d :
  all_chars PyFloat.is_digit (NilEmpty.string_of_uint d) = true.
Proof. induction d; simpl; auto. Qed.

Lemma digits_no_space s :
  all_chars PyFloat.is_digit s = true ->
  all_chars (fun c => negb (is_space c)) s = true.
Proof.
  apply all_chars_impl. intros c Hc. by rewrite (is_digit_not_space c Hc).
Qed.

Lemma signed_body_digits s :
  all_chars PyFloat.is_digit s = true -> signed_body s = (false, s).
Proof.
  destruct s as [|c r]; simpl; [done|].
  rewrite andb_true_iff. intros [Hc _].
  destruct (is_digit_not_sign c Hc) as [Hm Hp].
  destruct c as [[] [] [] [] [] [] [] []]; try done.
Qed.

Lemma digits_of_string_to_uint p :
  digits_of_string (NilEmpty.string_of_uint (Pos.to_uint p)) = Some (Zpos p).
Proof.
  unfold digits_of_string. rewrite NilEmpty.usu.
  pose proof (DecimalPos.Unsigned.to_uint_nonnil p) as Hnil.
  pose proof (DecimalPos.Unsigned.of_to p) as Hof.
  destruct (Pos.to_uint p) eqn:E; try done;
    unfold Z.of_uint; rewrite Hof; done.
Qed.

Lemma string_of_uint_pos p :
  NilZero.string_of_uint (Pos.to_uint p)
  = NilEmpty.string_of_uint (Pos.to_uint p).
Proof.
  pose proof (DecimalPos.Unsigned.to_uint_nonnil p) as Hnil.
  unfold NilZero.string_of_uint. destruct (Pos.to_uint p); done.
Qed.

(** [int(str(z)) == z] for every integer. *)
Lemma int_of_string_str_of_Z z : int_of_string (str_of_Z z) = Some z.
Proof.
  destruct z as [|p|p].
  - reflexivity.
  - unfold str_of_Z, int_of_string. simpl Z.to_int. simpl NilZero.string_of_int.
    rewrite string_of_uint_pos.
    pose proof (string_of_uint_digits (Pos.to_uint p)) as Hd.
    rewrite strip_no_space by by apply digits_no_space.
    rewrite signed_body_digits by done. cbv beta iota.
    rewrite lstrip_no_space by by apply digits_no_space.
    by rewrite digits_of_string_to_uint.
  - unfold str_of_Z, int_of_string. simpl Z.to_int. simpl NilZero.string_of_int.
    rewrite string_of_uint_pos.
    pose proof (string_of_uint_digits (Pos.to_uint p)) as Hd.
    rewrite strip_no_space.
    + simpl signed_body. cbv beta iota.
      rewrite lstrip_no_space by by apply digits_no_space.
      by rewrite digits_of_string_to_uint.
    + simpl. by apply digits_no_space.
Qed.

(** ** Scalar typecasts *)

(** A boolean written and read back is the same boolean. *)
Lemma BooleanField_read_back h n (b : bool) :
  read_back h (scalar_field CBooleanField n) (PBool b) = Ok (PBool b).
Proof. by destruct b. Qed.

(** An integer written and read back is the same integer. *)
Lemma IntegerField_read_back h n (z : Z) :
  read_back h (scalar_field CIntegerField n) (PInt z) = Ok (PInt z).
Proof.
  cbv [read_back typecast_for_storage typecast_for_read scalar_field cls
       IntegerField_typecast_for_storage IntegerField_typecast_for_read
       is_None bind py_str py_int].
  by rewrite int_of_string_str_of_Z.
Qed.

(** A date written and read back, on an example. *)
Example DateField_read_back_example :
  read_back ∅ (scalar_field CDateField "day") (PDate (mk_date 2023 11 14))
  = Ok (PDate (mk_date 2023 11 14)).
Proof. vm_compute. reflexivity. Qed.

(** A datetime whose microseconds fill six digits survives the trip. *)
Example DateTimeField_read_back_six_digits :
  read_back ∅ (scalar_field CDateTimeField "at")
    (PDatetime (mk_datetime 2023 11 14 22 13 20 500000))
  = Ok (PDatetime (mk_datetime 2023 11 14 22 13 20 500000)).
Proof. vm_compute. reflexivity. Qed.

(** A float with more than twelve significant digits does not: Python
    2's [str] keeps twelve.  Here [1/3] comes back as [0.333333333333]. *)
Example FloatField_read_back_truncates :
  read_back ∅ (scalar_field CFloatField "ratio")
    (PFloat (S754_finite false 6004799503160661 (-54)))
  = Ok (PFloat (S754_finite false 6004799503154657 (-54))).
Proof. vm_compute. reflexivity. Qed.

(** C1.  The typecast pair of [DateTimeField] does not round-trip.  The
    storage text is built with ["%d.%d"], which prints the microseconds
    without their leading zeros; read back as a float, 5 microseconds
    past 2023-11-14 22:13:20 become half a second past it. *)
Theorem DateTimeField_read_back_microseconds :
  typecast_for_storage ∅ (scalar_field CDateTimeField "at")
    (PDatetime (mk_datetime 2023 11 14 22 13 20 5))
  = Ok (PStr "1700000000.5") /\
  read_back ∅ (scalar_field CDateTimeField "at")
    (PDatetime (mk_datetime 2023 11 14 22 13 20 5))
  = Ok (PDatetime (mk_datetime 2023 11 14 22 13 20 500000)).
Proof. split; vm_compute; reflexivity. Qed.

(** C2.  [typecast_for_storage(None)] is the string ["0"] for
    [BooleanField], [IntegerField] and [FloatField].  For
    [DateTimeField] and [DateField] the [isinstance] guard comes before
    the test for [None], so [None] raises [TypeError] and the branch
    that would return [None] is never reached. *)
Theorem typecast_for_storage_None h n :
  typecast_for_storage h (scalar_field CBooleanField n) PNone = Ok (PStr "0") /\
  typecast_for_storage h (scalar_field CIntegerField n) PNone = Ok (PStr "0") /\
  typecast_for_storage h (scalar_field CFloatField n) PNone = Ok (PStr "0") /\
  typecast_for_storage h (scalar_field CDateTimeField n) PNone = Raise TypeError /\
  typecast_for_storage h (scalar_field CDateField n) PNone = Raise TypeError.
Proof. repeat split; reflexivity. Qed.

(** The handler of the two date fields is reached by [TypeError] only:
    any other exception of the conversion leaves the method. *)
Lemma try_except_TypeError_only {A} (body handler : result A) e :
  body = Raise e -> e <> TypeError ->
  try_except_TypeError_as body handler = Raise e.
Proof. intros -> He. destruct e; done. Qed.

(** A raw string that [float] cannot parse raises [ValueError] out of
    both readers. *)
Lemma date_readers_raise_on_unparsable s :
  PyFloat.of_string s = None ->
  DateTimeField_typecast_for_read (PStr s) = Raise ValueError /\
  DateField_typecast_for_read (PStr s) = Raise ValueError.
Proof.
  intros H.
  unfold DateTimeField_typecast_for_read, DateField_typecast_for_read.
  simpl. rewrite H. done.
Qed.

(** C3.  A failed conversion is not turned into [None]: the clause
    [except TypeError, ValueError] catches [TypeError] alone.  On the raw
    string [abc], and on a timestamp beyond the calendar, both readers
    raise [ValueError]; only a [TypeError] (a raw value that is no
    string or number) gives [None]. *)
Theorem date_readers_raise_ValueError :
  typecast_for_read (scalar_field CDateTimeField "at") (PStr "abc")
    = Raise ValueError /\
  typecast_for_read (scalar_field CDateField "day") (PStr "abc")
    = Raise ValueError /\
  typecast_for_read (scalar_field CDateTimeField "at") (PStr "1e18")
    = Raise ValueError /\
  typecast_for_read (scalar_field CDateField "day") (PStr "1e18")
    = Raise ValueError /\
  typecast_for_read (scalar_field CDateTimeField "at") PNone = Ok PNone /\
  typecast_for_read (scalar_field CDateField "day") PNone = Ok PNone.
Proof. repeat split; vm_compute; reflexivity. Qed.




(** ** [ReferenceField] *)

Section ReferenceProperties.

Variable get_by_id : string -> pyval -> option model_obj.

(** With a class as target, [__set__] raises [TypeError] exactly on a
    value that is neither [None] nor an instance of the class. *)
Lemma ReferenceField_set_TypeError_iff self i c value :
  rf_target_type self = ByClass c ->
  fst (ReferenceField_set self i value) = Raise TypeError
  <-> (isinstance value c = false /\ value <> PNone).
Proof.
  intros Ht. unfold ReferenceField_set, ReferenceField_value_type.
  rewrite Ht. simpl.
  destruct (isinstance value c) eqn:Hi; simpl.
  - destruct (ReferenceField_attname self) as [a s'].
    destruct value; simpl; split; intros H; try done; by destruct H.
  - destruct value; simpl; try (split; [intros _; split; done | done]).
    destruct (ReferenceField_attname self) as [a s']. simpl.
    split; [done | intros [_ H]; done].
Qed.

(** An instance of the target class is accepted: its identifier goes
    to the slot [attname] of the instance, and to no other slot. *)
Lemma ReferenceField_set_instance self i c o :
  rf_target_type self = ByClass c ->
  isinstance (PModel o) c = true ->
  let a := fst (ReferenceField_attname self) in
  ReferenceField_set self i (PModel o)
  = (Ok tt, (snd (ReferenceField_attname self), setattr i a (PStr (mo_id o))))
  /\ attrs (setattr i a (PStr (mo_id o))) !! a = Some (PStr (mo_id o))
  /\ forall slot, slot <> a ->
       attrs (setattr i a (PStr (mo_id o))) !! slot = attrs i !! slot.
Proof.
  intros Ht Hi a. unfold ReferenceField_set, ReferenceField_value_type.
  rewrite Ht. simpl isinstance_target. cbv beta iota. rewrite Hi. simpl.
  subst a. destruct (ReferenceField_attname self) as [a s']. simpl.
  split; [done|]. split.
  - apply lookup_insert_eq.
  - intros slot Hne. by apply lookup_insert_ne.
Qed.

(** C4.  [None] passes the type guard of [__set__] and then fails:
    [value.id] raises [AttributeError], and nothing is written to the
    instance.  So [None] is not an accepted value, although the guard
    exempts it from the [TypeError]. *)
Theorem ReferenceField_set_None c n ix rq an rn vd df ca i :
  let self := mk_ReferenceField (ByClass c) n ix rq an rn vd df ca in
  fst (ReferenceField_set self i PNone) = Raise AttributeError /\
  snd (snd (ReferenceField_set self i PNone)) = i.
Proof.
  intros self. unfold ReferenceField_set, ReferenceField_value_type. simpl.
  destruct c; simpl; destruct (ReferenceField_attname _); done.
Qed.

(** The lookup inside [__get__] fails with [AttributeError] only, and
    changes nothing of the descriptor but the memo of [attname]. *)
Lemma reference_lookup_cases self i :
  let r := ReferenceField_lookup get_by_id self i in
  ((exists o, fst r = Ok o) \/ fst r = Raise AttributeError) /\
  rf_default (snd r) = rf_default self /\
  rf_cache (snd r) = rf_cache self.
Proof.
  cbv zeta. unfold ReferenceField_lookup, ReferenceField_attname, getattr.
  destruct (target_objects _) as [c|e] eqn:Ht.
  - destruct (rf_attname self) as [a|]; simpl;
      match goal with
      | |- context [attrs i !! ?k] => destruct (attrs i !! k)
      end; simpl; eauto.
  - simpl. split; [|done]. right.
    unfold target_objects in Ht.
    destruct (ReferenceField_value_type self) as [n|[]|]; congruence.
Qed.

Lemma ReferenceField_get_cached self i o :
  rf_cache self = Some o -> ReferenceField_get get_by_id self i = (Ok o, self).
Proof. intros H. unfold ReferenceField_get. by rewrite H. Qed.

(** Whatever the descriptor and the instance, [__get__] returns a
    value and leaves it in the descriptor's own attribute. *)
Lemma ReferenceField_get_fills_cache self i :
  exists o self1,
    ReferenceField_get get_by_id self i = (Ok o, self1) /\
    rf_cache self1 = Some o.
Proof.
  destruct (rf_cache self) as [o|] eqn:Hc.
  - exists o, self. by rewrite (ReferenceField_get_cached self _ o Hc).
  - unfold ReferenceField_get. rewrite Hc.
    destruct (reference_lookup_cases self i) as ([[o Ho] | Hr] & _ & _);
      destruct (ReferenceField_lookup get_by_id self i) as [r s1];
      simpl in *; subst r; eauto.
Qed.

(** C7.  The resolved object is kept on the descriptor, not on the
    instance.  When a descriptor that has nothing cached is read
    through an instance [i1] whose [attname] slot holds an identifier,
    [__get__] looks that identifier up with [get_by_id] and stores the
    answer in the descriptor's own attribute.  From then on [__get__]
    through any instance [i2] returns that same object: [i2] and its
    [attname] slot are never looked at. *)
Theorem ReferenceField_get_cached_on_descriptor self i1 i2 c ident :
  rf_cache self = None ->
  rf_target_type self = ByClass (TyModel c) ->
  attrs i1 !! fst (ReferenceField_attname self) = Some ident ->
  let o := match get_by_id c ident with
           | Some found => PModel found
           | None => PNone
           end in
  exists self1,
    ReferenceField_get get_by_id self i1 = (Ok o, self1) /\
    rf_cache self1 = Some o /\
    ReferenceField_get get_by_id self1 i2 = (Ok o, self1).
Proof.
  intros Hc Ht Hslot o.
  unfold ReferenceField_get at 1. rewrite Hc.
  unfold ReferenceField_lookup, ReferenceField_value_type. rewrite Ht.
  simpl target_objects. cbv iota.
  destruct (ReferenceField_attname self) as [a s1]. simpl in Hslot.
  unfold getattr. rewrite Hslot. fold o.
  exists (rf_with_cache s1 (Some o)).
  split; [by destruct o|]. split; [done|].
  by apply ReferenceField_get_cached.
Qed.

End ReferenceProperties.

(** The cache of the descriptor bleeds between instances: two cars
    with different owners, read one after the other, show the same
    owner. *)
Example ReferenceField_get_bleeds :
  let person id := mk_model_obj "Person" [] id "Person" in
  let get_by_id (c : string) (v : pyval) :=
    match v with PStr id => Some (person id) | _ => None end in
  let owner := mk_ReferenceField (ByClass (TyModel "Person")) "owner"
                 true false None None None PNone None in
  let car1 := mk_instance false "Car:1" {[ "owner_id" := PStr "1" ]} in
  let car2 := mk_instance false "Car:2" {[ "owner_id" := PStr "3" ]} in
  let '(r1, owner1) := ReferenceField_get get_by_id owner car1 in
  r1 = Ok (PModel (person "1")) /\
  fst (ReferenceField_get get_by_id owner1 car2) = Ok (PModel (person "1")) /\
  fst (ReferenceField_get get_by_id owner car2) = Ok (PModel (person "3")).
Proof. vm_compute. done. Qed.

(** ** [ListField] *)

Section ListProperties.

Variable get_by_id : string -> pyval -> option model_obj.
Variable get_model_from_key : string -> option string.

Lemma map_result_total {A B} (f : A -> result B) (g : A -> B) l :
  (forall x, f x = Ok (g x)) -> map_result f l = Ok (map g l).
Proof.
  intros Hf. induction l as [|x r IH]; simpl; [done|].
  by rewrite Hf, IH.
Qed.

Lemma convert_model_target h self c vs :
  lf_redisco_model self = true ->
  ListField_convert get_by_id h self (Some (TyModel c)) vs
  = Ok (resolve_all get_by_id c vs).
Proof.
  intros Hm. unfold ListField_convert. rewrite Hm.
  rewrite (map_result_total _
    (fun v => match get_by_id c v with Some o => PModel o | None => PNone end))
    by done.
  simpl. f_equal. unfold resolve_all.
  induction vs as [|v r IH]; simpl; [done|].
  destruct (get_by_id c v); simpl; by rewrite IH.
Qed.

Lemma value_type_declared self t :
  declared_class get_model_from_key (Collection self) = Some t ->
  exists self',
    ListField_value_type get_model_from_key self = (Ok (Some t), self') /\
    lf_target_type self' = ByClass t /\
    lf_name self' = lf_name self /\
    lf_default self' = lf_default self /\
    lf_required self' = lf_required self /\
    lf_validator self' = lf_validator self /\
    lf_redisco_model self' = lf_redisco_model self.
Proof.
  unfold declared_class, ListField_value_type.
  destruct (lf_target_type self) as [n|c|] eqn:Ht; [| |done].
  - destruct (get_model_from_key n) as [c|]; [|done].
    simpl. intros [= <-]. eexists. split; [done|]. done.
  - intros [= ->]. exists self. done.
Qed.

Lemma alloc_fresh (h : heap) items :
  h !! fst (alloc h items) = None.
Proof.
  unfold alloc. simpl. apply not_elem_of_dom. apply is_fresh.
Qed.

(** C5.  On a persisted instance with nothing cached, a [ListField]
    over a model class returns a new list holding, in the order of the
    backing list, the instances its identifiers resolve to; identifiers
    that resolve to nothing are left out.  With the backing list
    [1, 2, 3] and [2] unresolved, the result is the two instances found
    for [1] and [3], in that order. *)
Theorem ListField_get_resolves h d self i c :
  attrs i !! ("_" +:+ lf_name self) = None ->
  is_new i = false ->
  lf_redisco_model self = true ->
  declared_class get_model_from_key (Collection self) = Some (TyModel c) ->
  let ids := map PStr (members d (subkey i (lf_name self))) in
  exists l self',
    ListField_get get_by_id get_model_from_key h d self i
    = (Ok (PList l),
       (<[l := resolve_all get_by_id c ids]> h, self',
        ListField_set self' i (PList l)))
    /\ h !! l = None
    /\ (forall o1 o3,
          ids = [PStr "1"; PStr "2"; PStr "3"] ->
          get_by_id c (PStr "1") = Some o1 ->
          get_by_id c (PStr "2") = None ->
          get_by_id c (PStr "3") = Some o3 ->
          list_at (<[l := resolve_all get_by_id c ids]> h) l
          = [PModel o1; PModel o3]).
Proof.
  intros Hslot Hnew Hm Hdecl ids.
  destruct (value_type_declared self _ Hdecl)
    as (self' & Hvt & _ & Hname & _ & _ & _ & Hm').
  exists (fst (alloc h (resolve_all get_by_id c ids))), self'.
  split; [|split].
  - unfold ListField_get, getattr. rewrite Hslot, Hnew. simpl negb.
    cbv iota. rewrite Hvt. cbv beta iota. simpl bind.
    rewrite convert_model_target by congruence. done.
  - apply alloc_fresh.
  - intros o1 o3 Hids H1 H2 H3. unfold list_at.
    rewrite lookup_insert_eq. simpl. rewrite Hids. unfold resolve_all. simpl.
    by rewrite H1, H2, H3.
Qed.

Lemma map_result_fixed {A} (f : A -> result A) l out :
  map_result f l = Ok out -> Forall (fun v => f v = Ok v) l -> out = l.
Proof.
  revert out. induction l as [|x r IH]; simpl; intros out.
  - by intros [= <-].
  - intros H Hall. inversion Hall as [|? ? Hx Hr]; subst.
    rewrite Hx in H. simpl in H.
    destruct (map_result f r) as [ys|e]; simpl in H; [|done].
    injection H as <-. f_equal. by apply IH.
Qed.

Lemma convert_nil h self klass :
  ListField_convert get_by_id h self klass [] = Ok [].
Proof. unfold ListField_convert. by destruct (lf_redisco_model self). Qed.

(** C8, as the code has it.  On a new instance with nothing cached,
    [__get__] builds a new list from the items of the default, each
    passed through the target class (or resolved by identifier for a
    model class), caches it in the instance and returns it.  The new
    list is never the default object: the default keeps its items
    whatever is later written to the returned list.  It holds the same
    items as the default when the default is empty, or when the
    conversion leaves every item as it is. *)
Theorem ListField_get_new_fresh_list h d self i ld items t out :
  attrs i !! ("_" +:+ lf_name self) = None ->
  is_new i = true ->
  lf_default self = PList ld ->
  h !! ld = Some items ->
  declared_class get_model_from_key (Collection self) = Some t ->
  ListField_convert get_by_id h self (Some t) items = Ok out ->
  exists l self',
    ListField_get get_by_id get_model_from_key h d self i
    = (Ok (PList l), (<[l := out]> h, self', ListField_set self' i (PList l)))
    /\ attrs (ListField_set self' i (PList l)) !! ("_" +:+ lf_name self)
       = Some (PList l)
    /\ l <> ld
    /\ lf_default self' = PList ld
    /\ (forall items', <[l := items']> (<[l := out]> h) !! ld = Some items)
    /\ (items = [] -> out = [])
    /\ (lf_redisco_model self = false ->
        Forall (fun v => construct h (Some t) v = Ok v) items -> out = items).
Proof.
  intros Hslot Hnew Hdef Hld Hdecl Hconv.
  destruct (value_type_declared self _ Hdecl)
    as (self' & Hvt & _ & Hname & Hdef' & _ & _ & Hm').
  pose proof (alloc_fresh h out) as Hfresh.
  set (l := fst (alloc h out)) in *.
  assert (Hne : l <> ld) by (intros ->; congruence).
  exists l, self'. repeat split.
  - unfold ListField_get, getattr. rewrite Hslot, Hnew, Hdef. simpl is_None.
    cbv iota. rewrite Hvt. cbv beta iota. unfold iter_items, list_at.
    rewrite Hld. simpl bind.
    replace (ListField_convert get_by_id h self' (Some t) items) with (Ok out).
    + done.
    + rewrite <- Hconv. unfold ListField_convert. by rewrite Hm'.
  - unfold ListField_set, setattr. simpl. rewrite Hname.
    apply lookup_insert_eq.
  - done.
  - congruence.
  - intros items'. by rewrite !lookup_insert_ne.
  - intros ->. rewrite convert_nil in Hconv. congruence.
  - intros Hm Hall. unfold ListField_convert in Hconv. rewrite Hm in Hconv.
    by apply (map_result_fixed _ _ _ Hconv).
Qed.

(** ** Validation *)

Lemma extend_if_nonempty {A} (errors r : list A) :
  (if nonempty r then errors ++ r else errors) = errors ++ r.
Proof. destruct r; simpl; [by rewrite app_nil_r | done]. Qed.

Lemma fst_outcome {S} (errors : list (string * string)) (st : S) :
  fst (if nonempty errors then (Raise (FieldValidationError errors), st)
       else (Ok tt, st)) = outcome errors.
Proof. unfold outcome. by destruct (nonempty errors). Qed.



End ListProperties.


(** C9.  A falsy value is never type-checked by [validate]: [None],
    [False], [0], [0.0] and the empty string are falsy, and for a falsy
    value the collected errors are those of the [required] check and of
    the validator callback alone, whatever the declared class.  With no
    validator, no [bad type] error can be reported. *)
Theorem validate_skips_type_check_on_falsy h d self i val i' :
  Attribute_get d self i = (Ok val, i') ->
  truthy h val = false ->
  fst (Attribute_validate h d self i)
  = outcome (required_errors h (Scalar self) val
             ++ validator_errors (Scalar self) val)
  /\ (validator self = None ->
      forall errors,
        fst (Attribute_validate h d self i)
        = Raise (FieldValidationError errors) ->
        ~ In (name self, "bad type") errors)
  /\ truthy h PNone = false
  /\ truthy h (PBool false) = false
  /\ truthy h (PInt 0) = false
  /\ truthy h (PFloat (S754_zero false)) = false
  /\ truthy h (PStr "") = false.
Proof.
  intros Hget Ht.
  assert (Hval : fst (Attribute_validate h d self i)
                 = outcome (required_errors h (Scalar self) val
                            ++ validator_errors (Scalar self) val)).
  { unfold Attribute_validate. rewrite Hget, Ht. cbv zeta. simpl andb.
    cbv iota. rewrite fst_outcome. f_equal.
    unfold required_errors, validator_errors. simpl.
    destruct (validator self) as [g|]; rewrite ?extend_if_nonempty;
      destruct (required self), (is_None val),
        (string_is_empty (strip (py_str h val))); simpl;
      rewrite ?app_nil_r; done. }
  split; [done|]. split; [|done].
  intros Hv errors. rewrite Hval.
  unfold required_errors, validator_errors, outcome. simpl. rewrite Hv.
  rewrite app_nil_r.
  destruct (required self &&
            (is_None val || string_is_empty (strip (py_str h val))))%bool;
    simpl; [|done].
  intros [= <-] [H|[]]. by injection H.
Qed.


(** ** The statements on concrete fields *)

(** The backing list [1, 2, 3] of a persisted group, with [2] gone:
    the two people found, in order. *)
Lemma ListField_get_resolves_witness :
  attrs Examples.group7 !! ("_" +:+ lf_name Examples.people) = None /\
  is_new Examples.group7 = false /\
  exists l self',
    ListField_get Examples.get_by_id Examples.get_model_from_key ∅
      Examples.store Examples.people Examples.group7
    = (Ok (PList l),
       (<[l := [PModel (Examples.person "1"); PModel (Examples.person "3")]]> ∅,
        self', ListField_set self' Examples.group7 (PList l)))
    /\ (∅ : heap) !! l = None.
Proof.
  split; [reflexivity|]. split; [reflexivity|].
  destruct (ListField_get_resolves Examples.get_by_id
              Examples.get_model_from_key ∅ Examples.store Examples.people
              Examples.group7 "Person")
    as (l & self' & Hget & Hfresh & _); [reflexivity ..|].
  exists l, self'. split; [exact Hget | exact Hfresh].
Defined.

(** The owner of a first car is resolved and cached; a second car,
    whose own owner is person 3, then shows the owner of the first. *)
Lemma ReferenceField_get_cached_on_descriptor_witness :
  attrs Cases.car_of_1 !! fst (ReferenceField_attname Cases.owner)
  = Some (PStr "1") /\
  attrs Cases.car_of_3 !! fst (ReferenceField_attname Cases.owner)
  = Some (PStr "3") /\
  fst (ReferenceField_get Examples.get_by_id Cases.owner Cases.car_of_3)
  = Ok (PModel (Examples.person "3")) /\
  exists self1,
    ReferenceField_get Examples.get_by_id Cases.owner Cases.car_of_1
    = (Ok (PModel (Examples.person "1")), self1) /\
    rf_cache self1 = Some (PModel (Examples.person "1")) /\
    ReferenceField_get Examples.get_by_id self1 Cases.car_of_3
    = (Ok (PModel (Examples.person "1")), self1).
Proof.
  split; [reflexivity|]. split; [reflexivity|]. split; [reflexivity|].
  exact (ReferenceField_get_cached_on_descriptor Examples.get_by_id
           Cases.owner Cases.car_of_1 Cases.car_of_3 "Person" (PStr "1")
           eq_refl eq_refl eq_refl).
Defined.

(** C8, as stated, fails on [ListField(int, default=['1', '2'])]: a
    new instance gets the list [1, 2] of integers, which is not a copy
    of the default list of strings. *)
Lemma ListField_get_new_not_a_copy :
  lf_default Examples.nums = PList 1%positive /\
  is_new Examples.group8 = true /\
  exists l h' self' i',
    ListField_get Examples.get_by_id Examples.get_model_from_key
      Examples.nums_heap Examples.store Examples.nums Examples.group8
    = (Ok (PList l), (h', self', i')) /\
    list_at h' 1%positive = [PStr "1"; PStr "2"] /\
    list_at h' l = [PInt 1; PInt 2] /\
    list_at h' l <> list_at h' 1%positive.
Proof.
  split; [reflexivity|]. split; [reflexivity|].
  exists 2%positive, (<[2%positive := [PInt 1; PInt 2]]> Examples.nums_heap),
    Examples.nums, (ListField_set Examples.nums Examples.group8 (PList 2%positive)).
  split; [vm_compute; reflexivity|].
  split; [reflexivity|]. split; [reflexivity|].
  vm_compute. discriminate.
Qed.

Lemma ListField_get_new_fresh_list_witness :
  attrs Examples.group8 !! ("_" +:+ lf_name Examples.nums) = None /\
  Examples.nums_heap !! 1%positive = Some [PStr "1"; PStr "2"] /\
  ListField_convert Examples.get_by_id Examples.nums_heap Examples.nums
    (Some TyInt) [PStr "1"; PStr "2"] = Ok [PInt 1; PInt 2] /\
  exists l self',
    ListField_get Examples.get_by_id Examples.get_model_from_key
      Examples.nums_heap Examples.store Examples.nums Examples.group8
    = (Ok (PList l),
       (<[l := [PInt 1; PInt 2]]> Examples.nums_heap, self',
        ListField_set self' Examples.group8 (PList l)))
    /\ l <> 1%positive
    /\ lf_default self' = PList 1%positive
    /\ (forall items',
          <[l := items']> (<[l := [PInt 1; PInt 2]]> Examples.nums_heap)
          !! 1%positive = Some [PStr "1"; PStr "2"]).
Proof.
  split; [reflexivity|]. split; [reflexivity|]. split; [reflexivity|].
  destruct (ListField_get_new_fresh_list Examples.get_by_id
              Examples.get_model_from_key Examples.nums_heap Examples.store
              Examples.nums Examples.group8 1%positive
              [PStr "1"; PStr "2"] TyInt [PInt 1; PInt 2])
    as (l & self' & Hget & _ & Hne & Hdef & Hframe & _); [reflexivity ..|].
  exists l, self'. repeat split; assumption.
Defined.


(** The float [0.0] in an integer field: not an [int], falsy, and
    [validate] passes. *)
Lemma validate_skips_type_check_on_falsy_witness :
  isinstance (PFloat (S754_zero false)) (value_type Examples.count) = false /\
  truthy ∅ (PFloat (S754_zero false)) = false /\
  fst (Attribute_validate ∅ Examples.store Examples.count Examples.zero_count)
  = Ok tt.
Proof.
  split; [reflexivity|]. split; [reflexivity|].
  exact (proj1 (validate_skips_type_check_on_falsy ∅ Examples.store
                  Examples.count Examples.zero_count
                  (PFloat (S754_zero false)) Examples.zero_count
                  eq_refl eq_refl)).
Defined.

(** * Further properties of the descriptors *)

(** ** Scalar fields: reading, writing and caching *)

(** X1.  What [__set__] stores is what [__get__] returns: any value,
    of any type, and whatever the store holds; the read changes
    nothing.  The same holds for a [ListField]. *)
Theorem descriptor_get_after_set get_by_id get_model_from_key h d a l i v :
  Attribute_get d a (Attribute_set a i v) = (Ok v, Attribute_set a i v) /\
  ListField_get get_by_id get_model_from_key h d l (ListField_set l i v)
  = (Ok v, (h, l, ListField_set l i v)).
Proof.
  unfold Attribute_get, ListField_get, Attribute_set, ListField_set,
    getattr, setattr. simpl.
  by rewrite !lookup_insert_eq.
Qed.

(** X2.  A value read once is cached in the instance: every later
    [__get__] returns it and leaves the instance alone, whatever the
    store has become. *)
Theorem Attribute_get_caches d d' self i v i' :
  Attribute_get d self i = (Ok v, i') ->
  Attribute_get d' self i' = (Ok v, i').
Proof.
  unfold Attribute_get at 1. unfold getattr.
  destruct (attrs i !! ("_" +:+ name self)) as [c|] eqn:Hslot.
  - intros [= <- <-]. unfold Attribute_get, getattr. by rewrite Hslot.
  - assert (Hset : forall w, Attribute_get d' self (Attribute_set self i w)
                             = (Ok w, Attribute_set self i w)).
    { intros w. unfold Attribute_get, Attribute_set, getattr, setattr. simpl.
      by rewrite lookup_insert_eq. }
    destruct (is_new i); simpl.
    + intros [= <- <-]. apply Hset.
    + destruct (hget d (key i) (name self)) as [raw|].
      * destruct (typecast_for_read self (PStr raw)) as [w|e]; [|done].
        intros [= <- <-]. apply Hset.
      * intros [= <- <-]. apply Hset.
Qed.

Lemma datetime_fromtimestamp_cases f :
  (exists d, Calendar.datetime_fromtimestamp f = Ok d)
  \/ Calendar.datetime_fromtimestamp f = Raise ValueError.
Proof.
  unfold Calendar.datetime_fromtimestamp.
  destruct (PyFloat.trunc f) as [timet|]; [|by right].
  destruct (PyFloat.round_to_long _) as [us|]; [|by right].
  destruct (us <? 0); cbv beta iota;
    match goal with
    | |- context [if ?b then _ else _] => destruct b
    end; cbv beta iota;
    match goal with
    | |- context [Calendar.civil_from_days ?x] =>
        destruct (Calendar.civil_from_days x) as [[y m] dd]
    end; destruct (Calendar.year_ok y); eauto.
Qed.

Lemma date_fromtimestamp_cases f :
  (exists d, Calendar.date_fromtimestamp f = Ok d)
  \/ Calendar.date_fromtimestamp f = Raise ValueError.
Proof.
  unfold Calendar.date_fromtimestamp.
  destruct (PyFloat.trunc f) as [timet|]; [|by right].
  destruct (Calendar.civil_from_days _) as [[y m] dd].
  destruct (Calendar.year_ok y); eauto.
Qed.

(** A raw string is read as a value other than [None] -- of the
    declared class, unless the field is an [IntegerField] -- or the read
    raises [ValueError]; the base [Attribute] never raises. *)
Lemma typecast_for_read_string self s :
  (exists v, typecast_for_read self (PStr s) = Ok v /\ v <> PNone /\
             (cls self <> CIntegerField ->
              isinstance v (value_type self) = true))
  \/ (typecast_for_read self (PStr s) = Raise ValueError /\
      cls self <> CAttribute).
Proof.
  unfold typecast_for_read, value_type.
  destruct (cls self); simpl.
  - left. eexists. repeat split; done.
  - unfold BooleanField_typecast_for_read. simpl.
    destruct (int_of_string s); simpl;
      [left; eexists; repeat split; done | right; done].
  - unfold IntegerField_typecast_for_read. simpl.
    destruct (int_of_string s); simpl;
      [left; eexists; repeat split; done | right; done].
  - unfold FloatField_typecast_for_read. simpl.
    destruct (PyFloat.of_string s); simpl;
      [left; eexists; repeat split; done | right; done].
  - unfold DateTimeField_typecast_for_read. simpl.
    destruct (PyFloat.of_string s) as [f|]; simpl; [|by right].
    destruct (datetime_fromtimestamp_cases f) as [[dt ->] | ->]; simpl;
      [left; eexists; repeat split; done | right; done].
  - unfold DateField_typecast_for_read. simpl.
    destruct (PyFloat.of_string s) as [f|]; simpl; [|by right].
    destruct (date_fromtimestamp_cases f) as [[dt ->] | ->]; simpl;
      [left; eexists; repeat split; done | right; done].
Qed.

(** X3.  [Attribute.__get__] fails in one situation only: a persisted
    instance with nothing cached whose stored text the field cannot
    convert.  The exception is then a [ValueError], the field is not a
    plain [Attribute], and nothing is cached. *)
Theorem Attribute_get_raises_only_ValueError d self i e :
  fst (Attribute_get d self i) = Raise e ->
  e = ValueError /\ cls self <> CAttribute /\ is_new i = false /\
  snd (Attribute_get d self i) = i /\
  exists raw, hget d (key i) (name self) = Some raw /\
              typecast_for_read self (PStr raw) = Raise ValueError.
Proof.
  unfold Attribute_get, getattr.
  destruct (attrs i !! ("_" +:+ name self)); [done|].
  destruct (is_new i); simpl; [done|].
  destruct (hget d (key i) (name self)) as [raw|]; [|done].
  destruct (typecast_for_read_string self raw) as [(v & -> & _) | [Hr Hc]];
    [done|].
  rewrite Hr. simpl. intros [= <-]. repeat split; eauto.
Qed.

(** X4.  A value that comes from the store is never [None]: [__get__]
    returns [None] only when [None] is what the instance has cached,
    when the instance is new and the default is [None], or when the
    store has no such field. *)
Theorem Attribute_get_None_cases d self i i' :
  Attribute_get d self i = (Ok PNone, i') ->
  attrs i !! ("_" +:+ name self) = Some PNone
  \/ (is_new i = true /\ default self = PNone)
  \/ (is_new i = false /\ hget d (key i) (name self) = None).
Proof.
  unfold Attribute_get, getattr.
  destruct (attrs i !! ("_" +:+ name self)) as [c|].
  - intros [= -> _]. by left.
  - destruct (is_new i); simpl.
    + intros [= -> _]. right. by left.
    + destruct (hget d (key i) (name self)) as [raw|]; [|by right; right].
      destruct (typecast_for_read_string self raw)
        as [(v & -> & Hv & _) | [-> _]]; [|done].
      intros [= -> _]. done.
Qed.

(** X5.  A value loaded from the store has the declared class of its
    field, so [validate] cannot find it badly typed; the one exception
    is [IntegerField], whose text may denote a [long]. *)
Theorem Attribute_get_loaded_is_typed d self i raw v i' :
  attrs i !! ("_" +:+ name self) = None ->
  is_new i = false ->
  hget d (key i) (name self) = Some raw ->
  cls self <> CIntegerField ->
  Attribute_get d self i = (Ok v, i') ->
  isinstance v (value_type self) = true.
Proof.
  intros Hslot Hnew Hraw Hc. unfold Attribute_get, getattr.
  rewrite Hslot, Hnew, Hraw. simpl.
  destruct (typecast_for_read_string self raw)
    as [(w & -> & _ & Hw) | [-> _]]; [|done].
  intros [= <- _]. by apply Hw.
Qed.

(** X6.  Two fields of an instance, neither named like the slot of
    the other, do not interfere: writing one changes nothing of what
    the other reads, and reading one leaves the slot of the other as
    it is. *)
Theorem Attribute_fields_independent d f g i v :
  name f <> name g ->
  name f <> "_" +:+ name g ->
  name g <> "_" +:+ name f ->
  fst (Attribute_get d g (Attribute_set f i v)) = fst (Attribute_get d g i) /\
  attrs (snd (Attribute_get d f i)) !! ("_" +:+ name g)
  = attrs i !! ("_" +:+ name g).
Proof.
  intros Hne _ _.
  assert (Hslots : "_" +:+ name f <> "_" +:+ name g)
    by (intros H; apply Hne; by injection H).
  split.
  - unfold Attribute_get, Attribute_set, getattr, setattr. simpl.
    rewrite lookup_insert_ne by done.
    destruct (attrs i !! ("_" +:+ name g)); [done|].
    destruct (is_new i); simpl; [done|].
    destruct (hget d (key i) (name g)); [|done].
    by destruct (typecast_for_read g (PStr s)).
  - unfold Attribute_get, Attribute_set, getattr, setattr.
    destruct (attrs i !! ("_" +:+ name f)); [done|].
    destruct (is_new i), (hget d (key i) (name f)) as [raw|]; simpl;
      try (by rewrite lookup_insert_ne);
      destruct (typecast_for_read f (PStr raw)); simpl; try done;
      by rewrite lookup_insert_ne.
Qed.

(** ** Scalar fields: validation *)

Lemma str_of_Z_not_blank z : string_is_empty (strip (str_of_Z z)) = false.
Proof.
  assert (Hp : forall p,
    NilEmpty.string_of_uint (Pos.to_uint p) <> EmptyString).
  { intros p. pose proof (DecimalPos.Unsigned.to_uint_nonnil p).
    destruct (Pos.to_uint p); done. }
  destruct z as [|p|p].
  - reflexivity.
  - unfold str_of_Z. simpl Z.to_int. simpl NilZero.string_of_int.
    rewrite string_of_uint_pos.
    rewrite strip_no_space
      by (apply digits_no_space, string_of_uint_digits).
    specialize (Hp p). by destruct (NilEmpty.string_of_uint (Pos.to_uint p)).
  - unfold str_of_Z. simpl Z.to_int. simpl NilZero.string_of_int.
    rewrite string_of_uint_pos.
    rewrite strip_no_space; [done|].
    simpl. apply digits_no_space, string_of_uint_digits.
Qed.

(** X7.  A required field with no validator whose value is [None], or
    (for a plain [Attribute]) a string of white space only, fails
    [validate] with exactly one error, [required]. *)
Theorem required_reports_exactly_one h d self i val i' :
  Attribute_get d self i = (Ok val, i') ->
  required self = true ->
  validator self = None ->
  val = PNone \/
    (cls self = CAttribute /\ exists s, val = PStr s /\ strip s = EmptyString) ->
  fst (Attribute_validate h d self i)
  = Raise (FieldValidationError [(name self, "required")]).
Proof.
  intros Hget Hreq Hv Hval. unfold Attribute_validate.
  rewrite Hget, Hreq, Hv. cbv zeta.
  destruct Hval as [-> | (Hc & s & -> & Hs)]; [done|].
  unfold value_type. rewrite Hc. simpl isinstance. simpl py_str.
  rewrite Hs. simpl. by rewrite andb_false_r.
Qed.

(** X8.  [required] is about text, not truth: a required
    [IntegerField] that holds any plain integer -- zero included --
    passes [validate]. *)
Theorem required_integer_accepts_zero h d self i z i' :
  Attribute_get d self i = (Ok (PInt z), i') ->
  cls self = CIntegerField ->
  validator self = None ->
  is_machine_int z = true ->
  fst (Attribute_validate h d self i) = Ok tt.
Proof.
  intros Hget Hc Hv Hz. unfold Attribute_validate.
  rewrite Hget, Hv. cbv zeta.
  unfold value_type. rewrite Hc. simpl isinstance. rewrite Hz.
  simpl py_str. rewrite str_of_Z_not_blank. simpl.
  rewrite andb_false_r. by destruct (required self).
Qed.



(** X10.  Validation only reads through [__get__]: the instance (and,
    for a [ListField], the list store) is after [validate] exactly what
    [__get__] alone leaves, whether [validate] passes or fails. *)
Theorem validate_only_caches get_by_id get_model_from_key h d a l i :
  snd (Attribute_validate h d a i) = snd (Attribute_get d a i) /\
  (let after_validate :=
     snd (ListField_validate get_by_id get_model_from_key h d l i) in
   let after_get :=
     snd (ListField_get get_by_id get_model_from_key h d l i) in
   fst (fst after_validate) = fst (fst after_get) /\
   snd after_validate = snd after_get).
Proof.
  split.
  - unfold Attribute_validate.
    destruct (Attribute_get d a i) as [[v|e] i1]; [|done]. cbv zeta.
    match goal with
    | |- snd (if ?b then _ else _) = _ => by destruct b
    end.
  - unfold ListField_validate.
    destruct (ListField_get get_by_id get_model_from_key h d l i)
      as [[v|e] [[h1 l1] i1]]; [|done]. cbv zeta.
    match goal with
    | |- context [let '(_, _) := ?x in _] => destruct x as [[errs|e] l2]
    end; [|done].
    match goal with
    | |- context [if nonempty ?b then _ else _] => by destruct (nonempty b)
    end.
Qed.

(** ** Scalar fields: the typecast pairs *)

(** X11.  A [BooleanField] normalises: whatever is written, the truth
    value of it is what is read back ([None] reads back as [False]). *)
Theorem BooleanField_read_back_truth h n ix rq vd df an ana v :
  read_back h (mk_Attribute CBooleanField n ix rq vd df an ana) v
  = Ok (PBool (truthy h v)).
Proof.
  unfold read_back, typecast_for_storage, typecast_for_read,
    BooleanField_typecast_for_storage. cbn [cls].
  destruct (is_None v) eqn:Hn.
  - by destruct v.
  - by destruct (truthy h v).
Qed.

(** X12.  An [IntegerField] gives back every integer it stores;
    [None] comes back as [0]; a boolean -- an instance of [int] for
    [validate] -- is stored as its name and cannot be read back. *)
Theorem IntegerField_read_back_cases h n ix rq vd df an ana :
  let self := mk_Attribute CIntegerField n ix rq vd df an ana in
  (forall z, read_back h self (PInt z) = Ok (PInt z)) /\
  read_back h self PNone = Ok (PInt 0) /\
  (forall b, isinstance (PBool b) (value_type self) = true /\
             read_back h self (PBool b) = Raise ValueError).
Proof.
  intros self. split; [|split].
  - intros z.
    cbv [read_back typecast_for_storage typecast_for_read self cls
         IntegerField_typecast_for_storage IntegerField_typecast_for_read
         is_None bind py_str py_int].
    by rewrite int_of_string_str_of_Z.
  - reflexivity.
  - intros []; split; reflexivity.
Qed.



(** ** [ListField]: defaults, caching and the list store *)

Section ListFieldMore.

Variable get_by_id : string -> pyval -> option model_obj.
Variable get_model_from_key : string -> option string.

Lemma value_type_keeps_name self :
  lf_name (snd (ListField_value_type get_model_from_key self)) = lf_name self.
Proof.
  unfold ListField_value_type.
  destruct (lf_target_type self) as [n|c|]; [|done|done].
  by destruct (get_model_from_key n).
Qed.

(** The four ways a [__get__] can end. *)
Lemma ListField_get_cases h d self i :
  let r := ListField_get get_by_id get_model_from_key h d self i in
  let slot := "_" +:+ lf_name self in
  (exists v, attrs i !! slot = Some v /\ r = (Ok v, (h, self, i)))
  \/ (attrs i !! slot = None /\
      r = (Ok PNone, (h, self, ListField_set self i PNone)))
  \/ (attrs i !! slot = None /\
      exists e self1, r = (Raise e, (h, self1, i)))
  \/ (attrs i !! slot = None /\
      exists out self1,
        lf_name self1 = lf_name self /\
        r = (Ok (PList (fresh (dom h))),
             (<[fresh (dom h) := out]> h, self1,
              ListField_set self1 i (PList (fresh (dom h)))))).
Proof.
  cbv zeta. unfold ListField_get, getattr.
  destruct (attrs i !! ("_" +:+ lf_name self)) as [v|] eqn:Hslot;
    [left; eauto|].
  right.
  pose proof (value_type_keeps_name self) as Hname.
  destruct (ListField_value_type get_model_from_key self) as [rk self1].
  simpl in Hname.
  destruct (is_new i).
  - destruct (is_None (lf_default self)); [by left|].
    right. destruct rk as [klass|e]; [|left; eauto].
    destruct (bind _ _) as [out|e];
      [right; split; [done|]; unfold alloc; eauto | left; eauto].
  - right. destruct rk as [klass|e]; [|left; eauto].
    destruct (bind _ _) as [out|e];
      [right; split; [done|]; unfold alloc; eauto | left; eauto].
Qed.

(** X14.  Each descriptor made without a default ([None], or an empty
    list) gets an empty list of its own: two descriptors never share
    their default list, and the new list was no object before. *)
Theorem ListField_init_own_default h t1 n1 ix1 rq1 vd1 d1 t2 n2 ix2 rq2 vd2 d2 :
  truthy h d1 = false ->
  truthy (snd (ListField_init h t1 n1 ix1 rq1 vd1 d1)) d2 = false ->
  let first := ListField_init h t1 n1 ix1 rq1 vd1 d1 in
  let second := ListField_init (snd first) t2 n2 ix2 rq2 vd2 d2 in
  exists l1 l2,
    lf_default (fst first) = PList l1 /\
    lf_default (fst second) = PList l2 /\
    l1 <> l2 /\ h !! l1 = None /\
    list_at (snd second) l1 = [] /\ list_at (snd second) l2 = [].
Proof.
  intros H1 H2. cbv zeta. revert H2.
  unfold ListField_init. rewrite H1. unfold alloc at 1 2 3 4. simpl snd.
  intros H2. rewrite H2. unfold alloc. simpl.
  set (l1 := fresh (dom h)).
  set (h1 := <[l1 := []]> h).
  set (l2 := fresh (dom h1)).
  assert (Hl1 : h !! l1 = None) by apply not_elem_of_dom, is_fresh.
  assert (Hl2 : h1 !! l2 = None) by apply not_elem_of_dom, is_fresh.
  assert (Hne : l1 <> l2).
  { intros E. rewrite <- E in Hl2. unfold h1 in Hl2.
    by rewrite lookup_insert_eq in Hl2. }
  exists l1, l2. repeat split; try done.
  - unfold list_at. rewrite lookup_insert_ne by done.
    unfold h1. by rewrite lookup_insert_eq.
  - unfold list_at. by rewrite lookup_insert_eq.
Qed.

(** X15.  The list read once is cached in the instance: every later
    [__get__] returns the same list object, allocates nothing and looks
    neither at the store nor at the model layer. *)
Theorem ListField_get_caches h d self i v h' self' i' :
  ListField_get get_by_id get_model_from_key h d self i
  = (Ok v, (h', self', i')) ->
  forall gbi2 gmk2 h2 d2,
    ListField_get gbi2 gmk2 h2 d2 self' i' = (Ok v, (h2, self', i')).
Proof.
  intros Hget gbi2 gmk2 h2 d2.
  assert (Hset : forall s w,
    ListField_get gbi2 gmk2 h2 d2 s (ListField_set s i w)
    = (Ok w, (h2, s, ListField_set s i w))).
  { intros s w. unfold ListField_get, ListField_set, getattr, setattr. simpl.
    by rewrite lookup_insert_eq. }
  destruct (ListField_get_cases h d self i)
    as [(c & Hslot & Hr) | [[_ Hr] | [(_ & e & s1 & Hr) | (_ & out & s1 & _ & Hr)]]];
    rewrite Hr in Hget; try discriminate Hget;
    injection Hget as <- <- <- <-.
  - unfold ListField_get, getattr. by rewrite Hslot.
  - apply Hset.
  - apply Hset.
Qed.

(** X16.  [__get__] never changes a list that exists: it reads the
    default, and the lists cached by other instances, and leaves their
    items as they are; its result goes into a new object. *)
Theorem ListField_get_keeps_lists h d self i l items :
  h !! l = Some items ->
  fst (fst (snd (ListField_get get_by_id get_model_from_key h d self i)))
  !! l = Some items.
Proof.
  intros Hl.
  destruct (ListField_get_cases h d self i)
    as [(c & _ & Hr) | [[_ Hr] | [(_ & e & s1 & Hr) | (_ & out & s1 & _ & Hr)]]];
    rewrite Hr; simpl; try done.
  rewrite lookup_insert_ne; [done|].
  intros E. pose proof (is_fresh (dom h)) as Hf.
  rewrite E in Hf. apply Hf, elem_of_dom. eauto.
Qed.

(** X17.  Two instances never share a list: the lists that two reads
    build, one after the other, are distinct objects. *)
Theorem ListField_get_distinct_lists h d self i1 i2 l1 l2 h1 self1 i1' st2 :
  attrs i1 !! ("_" +:+ lf_name self) = None ->
  attrs i2 !! ("_" +:+ lf_name self) = None ->
  ListField_get get_by_id get_model_from_key h d self i1
  = (Ok (PList l1), (h1, self1, i1')) ->
  ListField_get get_by_id get_model_from_key h1 d self1 i2
  = (Ok (PList l2), st2) ->
  l1 <> l2.
Proof.
  intros Hs1 Hs2 Hg1 Hg2.
  destruct (ListField_get_cases h d self i1)
    as [(c & Hc & _) | [[_ Hr] | [(_ & e & s1 & Hr) | (_ & out & s1 & Hn & Hr)]]];
    try congruence.
  rewrite Hr in Hg1. injection Hg1 as <- <- <- <-.
  destruct (ListField_get_cases (<[fresh (dom h) := out]> h) d s1 i2)
    as [(c & Hc & _) | [[_ Hr2] | [(_ & e & s2 & Hr2) | (_ & out2 & s2 & _ & Hr2)]]];
    try congruence.
  rewrite Hr2 in Hg2. injection Hg2 as <- _.
  intros E.
  pose proof (is_fresh (dom (<[fresh (dom h) := out]> h))) as Hf.
  rewrite <- E in Hf. apply Hf, elem_of_dom.
  rewrite lookup_insert_eq. eauto.
Qed.

End ListFieldMore.

(** ** [ListField]: target types and conversions *)

Section ListFieldConversions.

Variable get_by_id : string -> pyval -> option model_obj.
Variable get_model_from_key : string -> option string.

(** X18.  A target given by a name that no model class has: the first
    read raises [ValueError] and leaves [None] as the target type, so
    the error does not come back -- the next read of a new instance with
    an empty default succeeds with an empty list. *)
Theorem ListField_get_unknown_target h d self i n ld :
  lf_target_type self = ByName n ->
  get_model_from_key n = None ->
  attrs i !! ("_" +:+ lf_name self) = None ->
  is_new i = true ->
  lf_default self = PList ld ->
  h !! ld = Some [] ->
  let poisoned := lf_with_target self NoTarget in
  ListField_get get_by_id get_model_from_key h d self i
  = (Raise ValueError, (h, poisoned, i)) /\
  exists l,
    ListField_get get_by_id get_model_from_key h d poisoned i
    = (Ok (PList l), (<[l := []]> h, poisoned, ListField_set self i (PList l))).
Proof.
  intros Ht Hk Hslot Hnew Hdef Hld poisoned. split.
  - unfold ListField_get, getattr, ListField_value_type.
    rewrite Hslot, Hnew, Hdef, Ht, Hk. done.
  - exists (fresh (dom h)).
    unfold ListField_get, getattr, ListField_value_type. simpl.
    rewrite Hslot, Hnew, Hdef. simpl. unfold list_at. rewrite Hld. simpl.
    rewrite convert_nil. done.
Qed.

(** X19.  A target given by the name of a model class is looked up
    once: the class found is kept in the descriptor, and later calls of
    [value_type] answer with it without asking the registry again. *)
Theorem ListField_value_type_resolves_once self n c :
  lf_target_type self = ByName n ->
  get_model_from_key n = Some c ->
  exists self',
    ListField_value_type get_model_from_key self
    = (Ok (Some (TyModel c)), self') /\
    forall registry,
      ListField_value_type registry self' = (Ok (Some (TyModel c)), self').
Proof.
  intros Ht Hk. unfold ListField_value_type at 1. rewrite Ht, Hk.
  eexists. split; [done|]. done.
Qed.

Lemma construct_str h s : construct h (Some TyStr) (PStr s) = Ok (PStr s).
Proof. done. Qed.

Lemma construct_int_printed h z :
  construct h (Some TyInt) (PStr (str_of_Z z)) = Ok (PInt z).
Proof. unfold construct, py_int. by rewrite int_of_string_str_of_Z. Qed.

Lemma map_result_map {A B C} (g : A -> B) (f : B -> result C) k l :
  (forall x, f (g x) = Ok (k x)) ->
  map_result f (map g l) = Ok (map k l).
Proof.
  intros H. induction l as [|x r IH]; simpl; [done|].
  by rewrite H, IH.
Qed.

(** X20.  A persisted [ListField] over [str] reads its backing list as
    it is: every member, in order, none left out. *)
Theorem ListField_get_strings h d self i :
  attrs i !! ("_" +:+ lf_name self) = None ->
  is_new i = false ->
  lf_target_type self = ByClass TyStr ->
  lf_redisco_model self = false ->
  exists l,
    ListField_get get_by_id get_model_from_key h d self i
    = (Ok (PList l),
       (<[l := map PStr (members d (subkey i (lf_name self)))]> h, self,
        ListField_set self i (PList l))).
Proof.
  intros Hslot Hnew Ht Hm. exists (fresh (dom h)).
  unfold ListField_get, getattr, ListField_value_type, ListField_convert.
  rewrite Hslot, Hnew, Ht, Hm. simpl.
  rewrite (map_result_total _ (fun v => PStr (py_str h v))) by done.
  rewrite map_map. done.
Qed.

(** X21.  Integers survive the store: when the backing list of a
    persisted [ListField] over [int] holds the decimal text of the
    integers [zs], the field reads the list [zs]. *)
Theorem ListField_get_integers h d self i zs :
  attrs i !! ("_" +:+ lf_name self) = None ->
  is_new i = false ->
  lf_target_type self = ByClass TyInt ->
  lf_redisco_model self = false ->
  members d (subkey i (lf_name self)) = map str_of_Z zs ->
  exists l,
    ListField_get get_by_id get_model_from_key h d self i
    = (Ok (PList l),
       (<[l := map PInt zs]> h, self, ListField_set self i (PList l))).
Proof.
  intros Hslot Hnew Ht Hm Hmem. exists (fresh (dom h)).
  unfold ListField_get, getattr, ListField_value_type, ListField_convert.
  rewrite Hslot, Hnew, Ht, Hm, Hmem. simpl. rewrite map_map.
  rewrite (map_result_map _ _ PInt); [done|].
  intros z. apply construct_int_printed.
Qed.

Lemma map_result_int_fails h ms s :
  In s ms -> int_of_string s = None ->
  map_result (construct h (Some TyInt)) (map PStr ms) = Raise ValueError.
Proof.
  intros Hin Hs. induction ms as [|m r IH]; [done|]. simpl.
  destruct (int_of_string m) as [z|] eqn:Hm; simpl; [|done].
  destruct Hin as [-> | Hin]; [congruence|].
  by rewrite IH.
Qed.

(** X22.  One member that is no integer spoils the read of a
    [ListField] over [int]: [__get__] raises [ValueError], caches
    nothing and allocates nothing. *)
Theorem ListField_get_bad_member h d self i s :
  attrs i !! ("_" +:+ lf_name self) = None ->
  is_new i = false ->
  lf_target_type self = ByClass TyInt ->
  lf_redisco_model self = false ->
  In s (members d (subkey i (lf_name self))) ->
  int_of_string s = None ->
  ListField_get get_by_id get_model_from_key h d self i
  = (Raise ValueError, (h, self, i)).
Proof.
  intros Hslot Hnew Ht Hm Hin Hs.
  unfold ListField_get, getattr, ListField_value_type, ListField_convert.
  rewrite Hslot, Hnew, Ht, Hm. simpl bind. cbv beta iota. simpl negb.
  cbv iota. simpl bind.
  by rewrite (map_result_int_fails h _ s Hin Hs).
Qed.

End ListFieldConversions.

(** ** [ReferenceField]: assignment and resolution *)

Section ReferenceFieldMore.

Variable get_by_id : string -> pyval -> option model_obj.

Lemma attname_keeps self :
  rf_cache (snd (ReferenceField_attname self)) = rf_cache self /\
  rf_target_type (snd (ReferenceField_attname self)) = rf_target_type self /\
  rf_default (snd (ReferenceField_attname self)) = rf_default self /\
  rf_required (snd (ReferenceField_attname self)) = rf_required self /\
  rf_validator (snd (ReferenceField_attname self)) = rf_validator self /\
  rf_name (snd (ReferenceField_attname self)) = rf_name self /\
  ReferenceField_attname (snd (ReferenceField_attname self))
  = (fst (ReferenceField_attname self), snd (ReferenceField_attname self)).
Proof.
  unfold ReferenceField_attname.
  destruct (rf_attname self) as [a|] eqn:Ha; simpl; rewrite ?Ha; done.
Qed.




(** X25.  The first read after an assignment looks up the identifier
    just written: it returns the instance [get_by_id] finds for it, or
    [None] -- not the default -- when there is none. *)
Theorem ReferenceField_get_after_set self i c o :
  rf_cache self = None ->
  rf_target_type self = ByClass (TyModel c) ->
  isinstance (PModel o) (TyModel c) = true ->
  let after := snd (ReferenceField_set self i (PModel o)) in
  fst (ReferenceField_get get_by_id (fst after) (snd after))
  = Ok (match get_by_id c (PStr (mo_id o)) with
        | Some found => PModel found
        | None => PNone
        end).
Proof.
  intros Hc Ht Hi.
  destruct (attname_keeps self) as (Hc1 & Ht1 & _ & _ & _ & _ & Ha1).
  cbv zeta. unfold ReferenceField_set, ReferenceField_value_type.
  rewrite Ht. cbn [isinstance_target]. rewrite Hi. cbn [negb andb].
  destruct (ReferenceField_attname self) as [a s1] eqn:Ha. simpl in *.
  unfold ReferenceField_get, ReferenceField_lookup, ReferenceField_value_type.
  rewrite Hc1, Hc, Ht1, Ht. simpl target_objects. cbv iota.
  rewrite Ha1. unfold getattr, setattr. simpl.
  rewrite lookup_insert_eq. simpl.
  by destruct (get_by_id c (PStr (mo_id o))).
Qed.

(** X26.  Unlike [ListField], [ReferenceField] never looks a target
    name up.  With a name as target, [__set__] raises [TypeError] for
    every value and writes nothing, and [__get__] can only give the
    default. *)
Theorem ReferenceField_named_target self i v n :
  rf_target_type self = ByName n ->
  rf_cache self = None ->
  ReferenceField_set self i v = (Raise TypeError, (self, i)) /\
  fst (ReferenceField_get get_by_id self i) = Ok (rf_default self).
Proof.
  intros Ht Hc. split.
  - unfold ReferenceField_set, ReferenceField_value_type. by rewrite Ht.
  - unfold ReferenceField_get, ReferenceField_lookup,
      ReferenceField_value_type.
    by rewrite Hc, Ht.
Qed.

(** X27.  A reference never assigned reads as the default -- and the
    default is then what the descriptor has cached, for this instance
    and for every other one. *)
Theorem ReferenceField_get_unset self i i2 :
  rf_cache self = None ->
  attrs i !! fst (ReferenceField_attname self) = None ->
  exists self1,
    ReferenceField_get get_by_id self i = (Ok (rf_default self), self1) /\
    ReferenceField_get get_by_id self1 i2 = (Ok (rf_default self), self1).
Proof.
  intros Hc Hslot.
  destruct (attname_keeps self) as (_ & _ & Hd1 & _).
  unfold ReferenceField_get at 1. rewrite Hc.
  unfold ReferenceField_lookup.
  destruct (target_objects (ReferenceField_value_type self)) as [c|e] eqn:Ht.
  - destruct (ReferenceField_attname self) as [a s1]. simpl in *.
    unfold getattr. rewrite Hslot. simpl. rewrite Hd1.
    eexists. split; [done|]. by apply ReferenceField_get_cached.
  - assert (e = AttributeError) as ->.
    { unfold target_objects in Ht.
      destruct (ReferenceField_value_type self) as [n|[]|]; congruence. }
    simpl. eexists. split; [done|]. by apply ReferenceField_get_cached.
Qed.

(** X28.  A required reference that was never assigned, with [None]
    as default and no validator, fails [validate] with exactly one
    error, [required]. *)
Theorem ReferenceField_required_unset h self i :
  rf_cache self = None ->
  attrs i !! fst (ReferenceField_attname self) = None ->
  rf_default self = PNone ->
  rf_required self = true ->
  rf_validator self = None ->
  fst (ReferenceField_validate get_by_id h self i)
  = Raise (FieldValidationError [(rf_name self, "required")]).
Proof.
  intros Hc Hslot Hd Hr Hv.
  destruct (attname_keeps self) as (_ & _ & Hd1 & Hr1 & Hv1 & Hn1 & _).
  unfold ReferenceField_validate, ReferenceField_get. rewrite Hc.
  unfold ReferenceField_lookup.
  destruct (target_objects (ReferenceField_value_type self)) as [c|e] eqn:Ht.
  - destruct (ReferenceField_attname self) as [a s1]. simpl in *.
    unfold getattr. rewrite Hslot. simpl. rewrite Hd1, Hd. simpl.
    by rewrite Hr1, Hr, Hv1, Hv, Hn1.
  - assert (e = AttributeError) as ->.
    { unfold target_objects in Ht.
      destruct (ReferenceField_value_type self) as [n|[]|]; congruence. }
    simpl. rewrite Hd. simpl. by rewrite Hr, Hv.
Qed.

End ReferenceFieldMore.

(** ** The further properties on concrete fields *)

Lemma Attribute_get_caches_witness :
  Attribute_get Cases.store Cases.title Cases.post1
  = (Ok (PStr "hello"), Attribute_set Cases.title Cases.post1 (PStr "hello")) /\
  Attribute_get Cases.empty_store Cases.title
    (Attribute_set Cases.title Cases.post1 (PStr "hello"))
  = (Ok (PStr "hello"), Attribute_set Cases.title Cases.post1 (PStr "hello")).
Proof.
  split; [reflexivity|].
  exact (Attribute_get_caches Cases.store Cases.empty_store Cases.title
           Cases.post1 (PStr "hello")
           (Attribute_set Cases.title Cases.post1 (PStr "hello")) eq_refl).
Defined.

Lemma Attribute_get_raises_only_ValueError_witness :
  fst (Attribute_get Cases.store Cases.score Cases.post1) = Raise ValueError /\
  snd (Attribute_get Cases.store Cases.score Cases.post1) = Cases.post1.
Proof.
  split; [reflexivity|].
  exact (proj1 (proj2 (proj2 (proj2
           (Attribute_get_raises_only_ValueError Cases.store Cases.score
              Cases.post1 ValueError eq_refl))))).
Defined.

Lemma Attribute_get_None_cases_witness :
  Attribute_get Cases.store Cases.subtitle Cases.post1
  = (Ok PNone, Attribute_set Cases.subtitle Cases.post1 PNone) /\
  (attrs Cases.post1 !! ("_" +:+ name Cases.subtitle) = Some PNone
   \/ (is_new Cases.post1 = true /\ default Cases.subtitle = PNone)
   \/ (is_new Cases.post1 = false /\
       hget Cases.store (key Cases.post1) (name Cases.subtitle) = None)).
Proof.
  split; [reflexivity|].
  exact (Attribute_get_None_cases Cases.store Cases.subtitle Cases.post1
           (Attribute_set Cases.subtitle Cases.post1 PNone) eq_refl).
Defined.

Lemma Attribute_get_loaded_is_typed_witness :
  fst (Attribute_get Cases.store Cases.posted_at Cases.post1)
  = Ok (PDatetime (mk_datetime 2023 11 14 22 13 20 500000)) /\
  isinstance (PDatetime (mk_datetime 2023 11 14 22 13 20 500000))
    (value_type Cases.posted_at) = true.
Proof.
  split; [vm_compute; reflexivity|].
  apply (Attribute_get_loaded_is_typed Cases.store Cases.posted_at
           Cases.post1 "1700000000.5"
           (PDatetime (mk_datetime 2023 11 14 22 13 20 500000))
           (Attribute_set Cases.posted_at Cases.post1
              (PDatetime (mk_datetime 2023 11 14 22 13 20 500000))));
    [reflexivity | reflexivity | reflexivity | discriminate
    | vm_compute; reflexivity].
Defined.

Lemma Attribute_fields_independent_witness :
  name Cases.title <> name Cases.score /\
  fst (Attribute_get Cases.store Cases.score
         (Attribute_set Cases.title Cases.post3 (PInt 5)))
  = Ok (PInt 12).
Proof.
  assert (Hne : name Cases.title <> name Cases.score) by discriminate.
  assert (Hfg : name Cases.title <> "_" +:+ name Cases.score)
    by discriminate.
  assert (Hgf : name Cases.score <> "_" +:+ name Cases.title)
    by discriminate.
  split; [exact Hne|].
  rewrite (proj1 (Attribute_fields_independent Cases.store Cases.title
                    Cases.score Cases.post3 (PInt 5) Hne Hfg Hgf)).
  reflexivity.
Defined.

Lemma required_reports_exactly_one_witness :
  Attribute_get Cases.store Cases.title Cases.draft
  = (Ok PNone, Attribute_set Cases.title Cases.draft PNone) /\
  fst (Attribute_validate ∅ Cases.store Cases.title Cases.draft)
  = Raise (FieldValidationError [("title", "required")]).
Proof.
  split; [reflexivity|].
  exact (required_reports_exactly_one ∅ Cases.store Cases.title Cases.draft
           PNone (Attribute_set Cases.title Cases.draft PNone)
           eq_refl eq_refl eq_refl (or_introl eq_refl)).
Defined.

Lemma required_integer_accepts_zero_witness :
  required Cases.needed_score = true /\
  fst (Attribute_validate ∅ Cases.store Cases.needed_score Cases.scored_zero)
  = Ok tt.
Proof.
  split; [reflexivity|].
  exact (required_integer_accepts_zero ∅ Cases.store Cases.needed_score
           Cases.scored_zero 0 Cases.scored_zero
           eq_refl eq_refl eq_refl eq_refl).
Defined.


Lemma ListField_init_own_default_witness :
  exists l1 l2,
    lf_default (fst (ListField_init ∅ (ByClass TyStr) "tags" true false None
                       PNone)) = PList l1 /\
    lf_default
      (fst (ListField_init
              (snd (ListField_init ∅ (ByClass TyStr) "tags" true false None
                      PNone))
              (ByClass TyInt) "votes" true false None PNone)) = PList l2 /\
    l1 <> l2.
Proof.
  destruct (ListField_init_own_default ∅ (ByClass TyStr) "tags" true false
              None PNone (ByClass TyInt) "votes" true false None PNone
              eq_refl eq_refl)
    as (l1 & l2 & H1 & H2 & Hne & _).
  exists l1, l2. split; [exact H1|]. split; [exact H2 | exact Hne].
Defined.

Lemma ListField_get_caches_witness :
  ListField_get Examples.get_by_id Examples.get_model_from_key Cases.lists1
    Cases.store Cases.votes Cases.post1
  = (Ok (PList 2%positive),
     (<[2%positive := [PInt 7; PInt (-8)]]> Cases.lists1, Cases.votes,
      ListField_set Cases.votes Cases.post1 (PList 2%positive))) /\
  ListField_get Examples.get_by_id Examples.get_model_from_key ∅
    Cases.empty_store Cases.votes
    (ListField_set Cases.votes Cases.post1 (PList 2%positive))
  = (Ok (PList 2%positive),
     (∅, Cases.votes,
      ListField_set Cases.votes Cases.post1 (PList 2%positive))).
Proof.
  assert (Hget :
    ListField_get Examples.get_by_id Examples.get_model_from_key Cases.lists1
      Cases.store Cases.votes Cases.post1
    = (Ok (PList 2%positive),
       (<[2%positive := [PInt 7; PInt (-8)]]> Cases.lists1, Cases.votes,
        ListField_set Cases.votes Cases.post1 (PList 2%positive))))
    by (vm_compute; reflexivity).
  split; [exact Hget|].
  exact (ListField_get_caches Examples.get_by_id Examples.get_model_from_key
           _ _ _ _ _ _ _ _ Hget
           Examples.get_by_id Examples.get_model_from_key ∅ Cases.empty_store).
Defined.

Lemma ListField_get_keeps_lists_witness :
  Cases.lists1 !! 1%positive = Some [] /\
  fst (fst (snd (ListField_get Examples.get_by_id Examples.get_model_from_key
                   Cases.lists1 Cases.store Cases.votes Cases.post1)))
  !! 1%positive = Some [].
Proof.
  split; [reflexivity|].
  exact (ListField_get_keeps_lists Examples.get_by_id
           Examples.get_model_from_key Cases.lists1 Cases.store Cases.votes
           Cases.post1 1%positive [] eq_refl).
Defined.

Lemma ListField_get_distinct_lists_witness :
  fst (ListField_get Examples.get_by_id Examples.get_model_from_key
         Cases.lists1 Cases.store Cases.votes Cases.post1)
  = Ok (PList 2%positive) /\
  fst (ListField_get Examples.get_by_id Examples.get_model_from_key
         (<[2%positive := [PInt 7; PInt (-8)]]> Cases.lists1) Cases.store
         Cases.votes Cases.post3)
  = Ok (PList 3%positive) /\
  2%positive <> 3%positive.
Proof.
  split; [vm_compute; reflexivity|]. split; [vm_compute; reflexivity|].
  apply (ListField_get_distinct_lists Examples.get_by_id
           Examples.get_model_from_key Cases.lists1 Cases.store Cases.votes
           Cases.post1 Cases.post3 2%positive 3%positive
           (<[2%positive := [PInt 7; PInt (-8)]]> Cases.lists1) Cases.votes
           (ListField_set Cases.votes Cases.post1 (PList 2%positive))
           (<[3%positive := []]>
              (<[2%positive := [PInt 7; PInt (-8)]]> Cases.lists1),
            Cases.votes,
            ListField_set Cases.votes Cases.post3 (PList 3%positive)));
    try reflexivity; vm_compute; reflexivity.
Defined.

Lemma ListField_get_unknown_target_witness :
  Examples.get_model_from_key "Ghost" = None /\
  fst (ListField_get Examples.get_by_id Examples.get_model_from_key
         Cases.lists1 Cases.store Cases.ghosts Cases.draft)
  = Raise ValueError /\
  exists l,
    fst (ListField_get Examples.get_by_id Examples.get_model_from_key
           Cases.lists1 Cases.store (lf_with_target Cases.ghosts NoTarget)
           Cases.draft)
    = Ok (PList l).
Proof.
  split; [reflexivity|].
  destruct (ListField_get_unknown_target Examples.get_by_id
              Examples.get_model_from_key Cases.lists1 Cases.store
              Cases.ghosts Cases.draft "Ghost" 1%positive
              eq_refl eq_refl eq_refl eq_refl eq_refl eq_refl)
    as [Hfirst [l Hsecond]].
  split; [by rewrite Hfirst|]. exists l. by rewrite Hsecond.
Defined.

Lemma ListField_value_type_resolves_once_witness :
  exists self',
    ListField_value_type Examples.get_model_from_key Cases.authors
    = (Ok (Some (TyModel "Person")), self') /\
    ListField_value_type (fun _ => None) self'
    = (Ok (Some (TyModel "Person")), self').
Proof.
  destruct (ListField_value_type_resolves_once Examples.get_model_from_key
              Cases.authors "Person" "Person" eq_refl eq_refl)
    as (self' & H1 & H2).
  exists self'. split; [exact H1 | exact (H2 (fun _ => None))].
Defined.

Lemma ListField_get_strings_witness :
  exists l,
    ListField_get Examples.get_by_id Examples.get_model_from_key Cases.lists1
      Cases.store Cases.tags Cases.post1
    = (Ok (PList l),
       (<[l := [PStr "a"; PStr "b"]]> Cases.lists1, Cases.tags,
        ListField_set Cases.tags Cases.post1 (PList l))).
Proof.
  exact (ListField_get_strings Examples.get_by_id Examples.get_model_from_key
           Cases.lists1 Cases.store Cases.tags Cases.post1
           eq_refl eq_refl eq_refl eq_refl).
Defined.

Lemma ListField_get_integers_witness :
  members Cases.store (subkey Cases.post1 (lf_name Cases.votes))
  = ["7"; "-8"] /\
  exists l,
    ListField_get Examples.get_by_id Examples.get_model_from_key Cases.lists1
      Cases.store Cases.votes Cases.post1
    = (Ok (PList l),
       (<[l := [PInt 7; PInt (-8)]]> Cases.lists1, Cases.votes,
        ListField_set Cases.votes Cases.post1 (PList l))).
Proof.
  split; [reflexivity|].
  exact (ListField_get_integers Examples.get_by_id Examples.get_model_from_key
           Cases.lists1 Cases.store Cases.votes Cases.post1 [7; -8]
           eq_refl eq_refl eq_refl eq_refl eq_refl).
Defined.

Lemma ListField_get_bad_member_witness :
  members Cases.store (subkey Cases.post1 (lf_name Cases.marks))
  = ["7"; "x"] /\
  ListField_get Examples.get_by_id Examples.get_model_from_key Cases.lists1
    Cases.store Cases.marks Cases.post1
  = (Raise ValueError, (Cases.lists1, Cases.marks, Cases.post1)).
Proof.
  split; [reflexivity|].
  apply (ListField_get_bad_member Examples.get_by_id
           Examples.get_model_from_key Cases.lists1 Cases.store Cases.marks
           Cases.post1 "x"); try reflexivity.
  vm_compute. right. left. reflexivity.
Defined.


Lemma ReferenceField_get_after_set_witness :
  fst (ReferenceField_get Examples.get_by_id
         (fst (snd (ReferenceField_set Cases.owner Cases.car
                      (PModel (Examples.person "3")))))
         (snd (snd (ReferenceField_set Cases.owner Cases.car
                      (PModel (Examples.person "3"))))))
  = Ok (PModel (Examples.person "3")) /\
  fst (ReferenceField_get Examples.get_by_id
         (fst (snd (ReferenceField_set Cases.owner Cases.car
                      (PModel (Examples.person "2")))))
         (snd (snd (ReferenceField_set Cases.owner Cases.car
                      (PModel (Examples.person "2"))))))
  = Ok PNone.
Proof.
  split.
  - exact (ReferenceField_get_after_set Examples.get_by_id Cases.owner
             Cases.car "Person" (Examples.person "3")
             eq_refl eq_refl eq_refl).
  - exact (ReferenceField_get_after_set Examples.get_by_id Cases.owner
             Cases.car "Person" (Examples.person "2")
             eq_refl eq_refl eq_refl).
Defined.

Lemma ReferenceField_named_target_witness :
  ReferenceField_set Cases.owner_by_name Cases.car
    (PModel (Examples.person "1"))
  = (Raise TypeError, (Cases.owner_by_name, Cases.car)) /\
  fst (ReferenceField_get Examples.get_by_id Cases.owner_by_name Cases.car)
  = Ok PNone.
Proof.
  exact (ReferenceField_named_target Examples.get_by_id Cases.owner_by_name
           Cases.car (PModel (Examples.person "1")) "Person"
           eq_refl eq_refl).
Defined.

Lemma ReferenceField_get_unset_witness :
  exists self1,
    ReferenceField_get Examples.get_by_id Cases.owner Cases.car
    = (Ok PNone, self1) /\
    ReferenceField_get Examples.get_by_id self1 Examples.group7
    = (Ok PNone, self1).
Proof.
  exact (ReferenceField_get_unset Examples.get_by_id Cases.owner Cases.car
           Examples.group7 eq_refl eq_refl).
Defined.

Lemma ReferenceField_required_unset_witness :
  fst (ReferenceField_validate Examples.get_by_id ∅ Cases.owner Cases.car)
  = Raise (FieldValidationError [("owner", "required")]).
Proof.
  exact (ReferenceField_required_unset Examples.get_by_id ∅ Cases.owner
           Cases.car eq_refl eq_refl eq_refl eq_refl eq_refl).
Defined.
